(** * super-mario: tile physics, perception snapshot and agent fallback

    A shallow embedding of [mario/public/game.js] (the browser client:
    level, collision, tick, snapshot) and of [mario/server.js] (state
    validation, action decision, local heuristic), with the properties of
    the design document stated and settled against the embedding.

    Numbers.  JavaScript numbers are modelled as exact rationals [Q]:
    every arithmetic operation of the source is the exact one, [Math.floor]
    is [Qfloor] and [Math.round] is rounding half up.  NaN, the infinities
    and binary rounding of the literals [0.01] and [0.85] are outside the
    model.  Tile indices are integers [Z]. *)

From Stdlib Require Import ZArith QArith Qround Qminmax Qabs Lia Lqa.
From stdpp Require Import base list strings pretty.

Local Open Scope Z_scope.

(** ** Strict comparison of rationals as a boolean *)

Definition Qlt_bool (a b : Q) : bool := negb (Qle_bool b a).

(** * The client: [mario/public/game.js] *)

Module Game.

(** ** Constants *)

Definition TILE : Z := 32.
Definition LEVEL_W : Z := 120.
Definition LEVEL_H : Z := 20.
Definition GRAVITY : Q := 1800.
Definition MOVE_ACCEL : Q := 1800.
Definition MAX_SPEED_X : Q := 220.
Definition JUMP_VY : Q := -520.
Definition FRICTION : Q := 0.85.

Definition GOAL_X : Z := (LEVEL_W - 3) * TILE.

(** ** The level

    [makeLevel] fills a [LEVEL_H] x [LEVEL_W] array of zeros and then
    writes cells in place.  [setCell lvl y x v] is [lvl[y][x] = v]; every
    write of [makeLevel] is in range (outside the range JavaScript would
    throw or grow the row, stdpp's [alter] and insert leave the list as it
    is). *)

Definition Level := list (list Z).

Definition setCell (lvl : Level) (yy xx : nat) (v : Z) : Level :=
  alter (fun row => <[xx := v]> row) yy lvl.

(** [for (let i = a; i < b; i++) body] over an accumulator. *)
Definition forUp {A} (a b : nat) (body : A -> nat -> A) (acc : A) : A :=
  foldl body acc (seq a (b - a)).

(** [for (let i = a; i > b; i--) body] over an accumulator. *)
Definition forDown {A} (a b : nat) (body : A -> nat -> A) (acc : A) : A :=
  foldl body acc (rev (seq (S b) (a - b))).

Definition makeLevel : Level :=
  let H := Z.to_nat LEVEL_H in
  let W := Z.to_nat LEVEL_W in
  let lvl := replicate H (replicate W 0) in
  (* Ground *)
  let lvl := forUp 0 W (fun lvl xx =>
               forUp (H - 2) H (fun lvl yy => setCell lvl yy xx 1) lvl) lvl in
  (* Lowered platforms *)
  let lvl := forUp 10 20 (fun lvl xx => setCell lvl 17 xx 1) lvl in
  let lvl := forUp 22 28 (fun lvl xx => setCell lvl 16 xx 1) lvl in
  let lvl := forUp 35 45 (fun lvl xx => setCell lvl 17 xx 1) lvl in
  (* Gaps in ground *)
  let lvl := forUp 48 52 (fun lvl xx => setCell lvl (H - 2) xx 0) lvl in
  let lvl := forUp 70 74 (fun lvl xx => setCell lvl (H - 2) xx 0) lvl in
  (* Short pillars *)
  let lvl := setCell lvl (H - 3) 60 1 in
  let lvl := setCell lvl (H - 3) 85 1 in
  (* Goal pillar *)
  let lvl := forDown (H - 3) (H - 12)
               (fun lvl yy => setCell lvl yy (W - 3) 1) lvl in
  lvl.

Definition WORLD : Level := Eval vm_compute in makeLevel.

(** [WORLD[ty][tx] === 1] behind the bounds guard.  The two [None]
    branches stand for reads outside the array; [WORLD_in_range] below
    shows the guard excludes them. *)
Definition isSolidTile (tx ty : Z) : bool :=
  if (tx <? 0) || (ty <? 0) || (tx >=? LEVEL_W) || (ty >=? LEVEL_H)
  then true
  else match WORLD !! Z.to_nat ty with
       | Some row =>
           match row !! Z.to_nat tx with
           | Some v => v =? 1
           | None => false
           end
       | None => false
       end.

(** ** The body *)

Record Body := mkBody {
  x : Q;
  y : Q;
  w : Q;
  h : Q;
  vx : Q;
  vy : Q;
  onGround : bool;
  facing : Z;
  onGroundLast : bool
}.

Definition set_x (o : Body) (v : Q) : Body :=
  mkBody v (y o) (w o) (h o) (vx o) (vy o) (onGround o) (facing o)
         (onGroundLast o).
Definition set_y (o : Body) (v : Q) : Body :=
  mkBody (x o) v (w o) (h o) (vx o) (vy o) (onGround o) (facing o)
         (onGroundLast o).
Definition set_vx (o : Body) (v : Q) : Body :=
  mkBody (x o) (y o) (w o) (h o) v (vy o) (onGround o) (facing o)
         (onGroundLast o).
Definition set_vy (o : Body) (v : Q) : Body :=
  mkBody (x o) (y o) (w o) (h o) (vx o) v (onGround o) (facing o)
         (onGroundLast o).
Definition set_onGround (o : Body) (b : bool) : Body :=
  mkBody (x o) (y o) (w o) (h o) (vx o) (vy o) b (facing o)
         (onGroundLast o).
Definition set_facing (o : Body) (f : Z) : Body :=
  mkBody (x o) (y o) (w o) (h o) (vx o) (vy o) (onGround o) f
         (onGroundLast o).
Definition set_onGroundLast (o : Body) (b : bool) : Body :=
  mkBody (x o) (y o) (w o) (h o) (vx o) (vy o) (onGround o) (facing o) b.

(** The [player] object at load time; [onGroundLast] is not yet a
    property there, which the only reader ([if (player.onGroundLast)])
    takes as false. *)
Definition player0 : Body :=
  mkBody (inject_Z (TILE * 2)) (inject_Z (TILE * 12)) 26 30 0 0 false 1 false.

Definition reset (p : Body) : Body :=
  let p := set_x p (inject_Z (TILE * 2)) in
  let p := set_y p (inject_Z (TILE * 12)) in
  let p := set_vx p 0 in
  let p := set_vy p 0 in
  let p := set_onGround p false in
  let p := set_facing p 1 in
  p.

(** ** Collision: [rectVsTilesMove]

    The two [for] loops scan a run of tiles and stop at the first solid
    one; [scan] is that loop with the number of iterations as fuel. *)

Fixpoint scan (solidAt : Z -> bool) (t : Z) (n : nat) : bool :=
  match n with
  | O => false
  | S n' => if solidAt t then true else scan solidAt (t + 1) n'
  end.

(** [for (let t = lo; t <= hi; t++) if (solidAt(t)) { ...; break; }] *)
Definition scanRange (solidAt : Z -> bool) (lo hi : Z) : bool :=
  scan solidAt lo (Z.to_nat (hi - lo + 1)).

Definition tileOf (a : Q) : Z := Qfloor (a / inject_Z TILE).

(** The horizontal block. *)
Definition moveX (o : Body) (dx : Q) : Body :=
  if Qeq_bool dx 0 then o
  else
    let right := Qlt_bool 0 dx in          (* sign > 0 *)
    let nx := (x o + dx)%Q in
    let ahead := if right then (nx + w o)%Q else nx in
    let xTile := tileOf ahead in
    let yTop := tileOf (y o) in
    let yBot := tileOf (y o + h o - 1)%Q in
    if scanRange (fun ty => isSolidTile xTile ty) yTop yBot
    then
      let nx := if right
                then (inject_Z (xTile * TILE) - w o - 0.01)%Q
                else (inject_Z ((xTile + 1) * TILE) + 0.01)%Q in
      set_x (set_vx o 0) nx
    else set_x o nx.

(** The vertical block. *)
Definition moveY (o : Body) (dy : Q) : Body :=
  if Qeq_bool dy 0 then o
  else
    let down := Qlt_bool 0 dy in           (* sign > 0 *)
    let ny := (y o + dy)%Q in
    let ahead := if down then (ny + h o)%Q else ny in
    let yTile := tileOf ahead in
    let xLeft := tileOf (x o) in
    let xRight := tileOf (x o + w o - 1)%Q in
    if scanRange (fun tx => isSolidTile tx yTile) xLeft xRight
    then
      let ny := if down
                then (inject_Z (yTile * TILE) - h o - 0.01)%Q
                else (inject_Z ((yTile + 1) * TILE) + 0.01)%Q in
      let o := set_vy o 0 in
      let o := if down then set_onGround o true else o in
      set_y o ny
    else set_y o ny.

Definition rectVsTilesMove (o : Body) (dx dy : Q) : Body :=
  moveY (moveX o dx) dy.

(** ** One tick: [update(dt)]

    [keys] is the ambient key table; only these four entries are read by
    the tick.  The asynchronous agent request at the top of [update] only
    writes this table from a later callback, so a tick takes the table as
    an input.  The camera is a separate object and is not part of the
    body. *)

Record Keys := mkKeys {
  ArrowLeft : bool;
  ArrowRight : bool;
  Space : bool;
  KeyZ : bool
}.

(** Input from player or AI-mapped keys: the acceleration and the new
    facing. *)
Definition inputStep (keys : Keys) (p : Body) : Q * Body :=
  let ax := 0%Q in
  let '(ax, p) := if ArrowLeft keys
                  then ((ax - MOVE_ACCEL)%Q, set_facing p (-1))
                  else (ax, p) in
  let '(ax, p) := if ArrowRight keys
                  then ((ax + MOVE_ACCEL)%Q, set_facing p 1)
                  else (ax, p) in
  (ax, p).

(** Horizontal physics. *)
Definition horizontalStep (dt ax : Q) (p : Body) : Body :=
  let p := set_vx p (vx p + ax * dt)%Q in
  let p := set_vx p (Qmax (Qmin (vx p) MAX_SPEED_X) (- MAX_SPEED_X)) in
  set_vx p (vx p * FRICTION)%Q.

(** Gravity. *)
Definition gravityStep (dt : Q) (p : Body) : Body :=
  let p := set_onGround p false in
  set_vy p (vy p + GRAVITY * dt)%Q.

(** Jump. *)
Definition jumpStep (keys : Keys) (p : Body) : Body :=
  if Space keys || KeyZ keys
  then (if onGroundLast p then set_vy p JUMP_VY else p)
  else p.

(** Move and collide. *)
Definition moveStep (dt : Q) (p : Body) : Body :=
  let p := rectVsTilesMove p (vx p * dt)%Q 0 in
  rectVsTilesMove p 0 (vy p * dt)%Q.

(** The guard of the win reset. *)
Definition reachedGoal (p : Body) : bool :=
  Qlt_bool (inject_Z (GOAL_X - TILE)) (x p)
  && Qlt_bool (y p) (inject_Z ((LEVEL_H - 3) * TILE)).

(** Win reset if reach goal area. *)
Definition winStep (p : Body) : Body :=
  if reachedGoal p then reset p else p.

(** Track ground state for jump edge. *)
Definition trackStep (p : Body) : Body :=
  set_onGroundLast p (onGround p).

(** The body as it enters [rectVsTilesMove] in a tick. *)
Definition beforeMove (dt : Q) (keys : Keys) (p : Body) : Body :=
  let '(ax, p) := inputStep keys p in
  jumpStep keys (gravityStep dt (horizontalStep dt ax p)).

Definition update (dt : Q) (keys : Keys) (p : Body) : Body :=
  trackStep (winStep (moveStep dt (beforeMove dt keys p))).

(** [gameLoop] calls [update] with this fixed step. *)
Definition STEP : Q := 1 # 60.

(** ** The perception snapshot: [snapshotState] *)

Definition Math_round (q : Q) : Z := Qfloor (q + (1 # 2))%Q.

Record PlayerView := mkPlayerView {
  view_x : Z;
  view_y : Z;
  view_vx : Z;
  view_vy : Z;
  view_onGround : bool
}.

Record Snapshot := mkSnapshot {
  player : PlayerView;
  nearGrid : list (list Z);
  goal_x : Z
}.

Definition txFeet (p : Body) : Z :=
  Qfloor ((x p + w p / 2) / inject_Z TILE)%Q.
Definition tyFeet (p : Body) : Z :=
  Qfloor ((y p + h p) / inject_Z TILE)%Q.

(** The nested loops that fill the grid, over any solidity query. *)
Definition fillGrid (solid : Z -> Z -> bool) (tx0 ty0 : Z)
                    (rows cols : nat) : list (list Z) :=
  let nearGrid := replicate rows (replicate cols 0) in
  forUp 0 rows (fun g r =>
    forUp 0 cols (fun g c =>
      let tx := tx0 + Z.of_nat c in
      let ty := ty0 - Z.of_nat r in
      setCell g r c (if solid tx ty then 1 else 0)) g) nearGrid.

Definition snapshotState (p : Body) : Snapshot :=
  let rows := 5%nat in
  let cols := 9%nat in
  let nearGrid := fillGrid isSolidTile (txFeet p) (tyFeet p) rows cols in
  mkSnapshot
    (mkPlayerView (Math_round (x p)) (Math_round (y p))
                  (Math_round (vx p)) (Math_round (vy p))
                  (onGround p))          (* !!player.onGround *)
    nearGrid
    GOAL_X.

(** ** The camera: the follow step of [update]

    [CAMERA.w] and [CAMERA.h] are the canvas size, fixed at load time. *)

Record Camera := mkCamera {
  cam_x : Z;
  cam_y : Z;
  cam_w : Z;
  cam_h : Z
}.

(** Camera follow. *)
Definition cameraFollow (cam : Camera) (p : Body) : Camera :=
  let cx := Qfloor (x p + w p / 2 - inject_Z (cam_w cam) / 2)%Q in
  let cy := Qfloor (y p + h p / 2 - inject_Z (cam_h cam) / 2)%Q in
  let cx := Z.max 0 (Z.min cx (LEVEL_W * TILE - cam_w cam)) in
  let cy := Z.max 0 (Z.min cy (LEVEL_H * TILE - cam_h cam)) in
  mkCamera cx cy (cam_w cam) (cam_h cam).

(** ** [applyAction]: an action string mapped to key presses

    The three writes at the top clear the movement keys and the jump key;
    the [switch] compares the action with [===], so any other string takes
    the [default] branch.  [KeyZ] is not written. *)

Definition set_ArrowLeft (keys : Keys) (b : bool) : Keys :=
  mkKeys b (ArrowRight keys) (Space keys) (KeyZ keys).
Definition set_ArrowRight (keys : Keys) (b : bool) : Keys :=
  mkKeys (ArrowLeft keys) b (Space keys) (KeyZ keys).
Definition set_Space (keys : Keys) (b : bool) : Keys :=
  mkKeys (ArrowLeft keys) (ArrowRight keys) b (KeyZ keys).

Definition applyAction (action : string) (p : Body) (keys : Keys) : Keys :=
  let keys := set_ArrowLeft keys false in
  let keys := set_ArrowRight keys false in
  let keys := set_Space keys false in
  if String.eqb action "left" then set_ArrowLeft keys true
  else if String.eqb action "right" then set_ArrowRight keys true
  else if String.eqb action "jump" then
    (if onGround p then set_Space keys true else keys)
  else if String.eqb action "left_jump" then
    let keys := set_ArrowLeft keys true in
    if onGround p then set_Space keys true else keys
  else if String.eqb action "right_jump" then
    let keys := set_ArrowRight keys true in
    if onGround p then set_Space keys true else keys
  else keys.

End Game.

(** * JavaScript values as the server sees them

    [express.json()] hands the server a parsed JSON document, and
    destructuring an absent property gives [undefined]; the remote
    completion is such a value too. *)

Module JS.

Local Open Scope string_scope.

Local Unset Elimination Schemes.
Inductive Value :=
  | Undefined
  | Null
  | Bool (b : bool)
  | Num (q : Q)
  | Str (s : string)
  | Arr (items : list Value)
  | Obj (fields : list (string * Value)).
Local Set Elimination Schemes.

(** Completion of a statement or expression: a value, or a thrown error
    with its message. *)
Inductive Result (A : Type) :=
  | Return (a : A)
  | Throw (msg : string).
Arguments Return {A} a.
Arguments Throw {A} msg.

Definition bind {A B} (m : Result A) (k : A -> Result B) : Result B :=
  match m with
  | Return a => k a
  | Throw msg => Throw msg
  end.

Notation "'let*' v ':=' m 'in' k" := (bind m (fun v => k))
  (at level 10, v name, m at level 100, k at level 200).

(** [try { body } catch (err) { handler }] *)
Definition tryCatch {A} (body : Result A) (handler : string -> Result A)
  : Result A :=
  match body with
  | Return a => Return a
  | Throw msg => handler msg
  end.

Definition nullish (v : Value) : bool :=
  match v with Undefined | Null => true | _ => false end.

(** ToBoolean; a number is falsy when it is zero (NaN is not modelled). *)
Definition truthy (v : Value) : bool :=
  match v with
  | Undefined | Null => false
  | Bool b => b
  | Num q => negb (Qeq_bool q 0)
  | Str s => negb (String.eqb s EmptyString)
  | Arr _ | Obj _ => true
  end.

(** [typeof v === 'object'] *)
Definition typeof_object (v : Value) : bool :=
  match v with Null | Arr _ | Obj _ => true | _ => false end.

Definition isArray (v : Value) : bool :=
  match v with Arr _ => true | _ => false end.

Definition isBoolean (v : Value) : bool :=
  match v with Bool _ => true | _ => false end.

Fixpoint assoc (k : string) (fields : list (string * Value)) : Value :=
  match fields with
  | [] => Undefined
  | (k', v) :: rest => if String.eqb k k' then v else assoc k rest
  end.

(** Own data property [k] of a value that is not nullish, for a name [k]
    that is neither an index nor [length] nor a prototype method: the names
    read by the server are [player], [nearGrid], [onGround], [action],
    [choices], [message] and [content].  Primitives and arrays have no such
    property. *)
Definition field (v : Value) (k : string) : Value :=
  match v with
  | Obj fields => assoc k fields
  | _ => Undefined
  end.

(** [v.k]: a TypeError on [undefined] and [null]. *)
Definition member (v : Value) (k : string) : Result Value :=
  if nullish v then Throw "TypeError: cannot read properties"
  else Return (field v k).

(** [v?.k] *)
Definition optMember (v : Value) (k : string) : Result Value :=
  if nullish v then Return Undefined else member v k.

(** Element [i] of a value that is not nullish: an array element, a
    character of a string, the property named by the decimal numeral of an
    object. *)
Definition element (v : Value) (i : nat) : Value :=
  match v with
  | Arr items => default Undefined (items !! i)
  | Str s => match String.get i s with
             | Some c => Str (String c EmptyString)
             | None => Undefined
             end
  | Obj fields => assoc (pretty i) fields
  | _ => Undefined
  end.

(** [v[i]] *)
Definition index (v : Value) (i : nat) : Result Value :=
  if nullish v then Throw "TypeError: cannot read properties"
  else Return (element v i).

(** [v?.[i]] *)
Definition optIndex (v : Value) (i : nat) : Result Value :=
  if nullish v then Return Undefined else index v i.

(** [v === n] for a number literal [n]. *)
Definition strictEqNum (v : Value) (n : Q) : bool :=
  match v with Num q => Qeq_bool q n | _ => false end.

End JS.

(** * The server: [mario/server.js] *)

Module Server.

Import JS.
Local Open Scope string_scope.

(** Allowed actions enum *)
Definition ACTIONS : list string :=
  ["idle"; "left"; "right"; "jump"; "left_jump"; "right_jump"].

(** [ACTIONS.has(a)] *)
Definition ACTIONS_has (a : string) : bool :=
  existsb (String.eqb a) ACTIONS.

(** ** [validateState] *)

(** The loop over the first rows, [r] counting up with [n] rows left. *)
Fixpoint checkRows (grid : Value) (r n : nat) : Result unit :=
  match n with
  | O => Return tt
  | S n' =>
      let* row := index grid r in
      if negb (isArray row)
         || (match row with Arr items => length items <? 9 | _ => true end)%nat
      then Throw ("nearGrid row " ++ pretty r ++ " needs >= 9 cols")
      else checkRows grid (S r) n'
  end.

Definition validateState (state : Value) : Result Value :=
  if negb (truthy state) || negb (typeof_object state)
  then Throw "Missing state"
  else
    let* player := member state "player" in
    let p := if truthy player then player else Obj [] in
    let* og := member p "onGround" in
    if negb (isBoolean og) then Throw "player.onGround must be boolean"
    else
      let* grid := member state "nearGrid" in
      match grid with
      | Arr rows =>
          if (length rows <? 5)%nat then Throw "nearGrid needs >= 5 rows"
          else
            let* _ := checkRows grid 0 5 in
            Return state
      | _ => Throw "nearGrid must be an array"
      end.

(** ** [heuristic]: the local policy fallback *)

Definition heuristic (state : Value) : Result string :=
  let* ng := optMember state "nearGrid" in
  let g := if truthy ng then ng else Arr [] in
  let* pl := optMember state "player" in
  let* og := optMember pl "onGround" in
  let onGround := truthy og in
  let* g0 := index g 0 in
  let* c1 := optIndex g0 1 in
  let* obstacleAhead :=
    if strictEqNum c1 1 then Return true
    else
      let* g0 := index g 0 in
      let* c2 := optIndex g0 2 in
      Return (strictEqNum c2 1) in
  let* g0 := index g 0 in
  let* c0 := optIndex g0 0 in
  let gapHere := strictEqNum c0 0 in
  if onGround && (obstacleAhead || gapHere) then Return "right_jump"
  else Return "right".

(** ** [decideAction]

    The runtime pieces the function calls but does not define are taken as
    parameters: [JSON.parse] (which may throw), [String(v)] (which may
    throw on an object without a usable [toString]), [toLowerCase], the two
    regular-expression replacements and [trim]. *)

Record Runtime := mkRuntime {
  JSON_parse : string -> Result Value;
  ToString : Value -> Result string;
  toLowerCase : string -> string;
  replaceOpenFence : string -> string;   (* .replace(/^```(?:json)?\s*/i, '') *)
  replaceCloseFence : string -> string;  (* .replace(/\s*```$/i, '') *)
  trim : string -> string
}.

(** What the promise of [openai.chat.completions.create(...)] settles
    with, when it settles: it is fulfilled with a completion, or it is
    rejected (network or API error). *)
Inductive Remote :=
  | Resolved (completion : Value)
  | Rejected (reason : string).

(** When the promise settles, in milliseconds after the call, if ever. *)
Inductive Call :=
  | Settles (after : Z) (outcome : Remote)
  | Hangs.

(** [create(body, options)] of the client library: a signal given in
    [options] that aborts before the call has settled rejects the call at
    that moment; a call without one runs its course.  [signal] is the
    moment the signal of [options] aborts, if there is one. *)
Definition create (call : Call) (signal : option Z) : Call :=
  match signal with
  | None => call
  | Some fuse =>
      match call with
      | Settles after outcome =>
          if (after <=? fuse)%Z then call
          else Settles fuse (Rejected "timeout")
      | Hangs => Settles fuse (Rejected "timeout")
      end
  end.

(** What [decideAction] returns and when, or that it never does. *)
Inductive Answer :=
  | Answered (after : Z) (result : Result string)
  | Stalled.

Section Decide.

Variable rt : Runtime.

(** [openai]: whether the client was configured with a key. *)
Variable openai : bool.

Definition stripFences (s : Value) : string :=
  match s with
  | Str s => trim rt (replaceCloseFence rt (replaceOpenFence rt s))
  | _ => "{}"
  end.

(** The body of the [try] block up to the normalised token [a]. *)
Definition remoteAction (remote : Remote) : Result string :=
  let* completion :=
    match remote with
    | Resolved c => Return c
    | Rejected reason => Throw reason
    end in
  let* choices := member completion "choices" in
  let* choice := optIndex choices 0 in
  let* message := optMember choice "message" in
  let* content := optMember message "content" in
  let raw := if nullish content then Str "{}" else content in
  let jsonText := stripFences raw in
  let* parsed := JSON_parse rt jsonText in
  let* action := member parsed "action" in
  let* str := ToString rt (if truthy action then action else Str EmptyString) in
  Return (toLowerCase rt str).

(** The whole [try] block. *)
Definition askRemote (remote : Remote) (state : Value) : Result string :=
  let* a := remoteAction remote in
  if ACTIONS_has a then Return a
  else heuristic state.

Definition decideAction (remote : Remote) (state : Value) : Result string :=
  if negb openai then heuristic state
  else tryCatch (askRemote remote state) (fun err => heuristic state).

(** [decideAction] in time.  The timer calls [ac.abort('timeout')] after
    2500 ms, but [ac.signal] is a property of the one argument of [create],
    the request body; the call is given no [options], so nothing listens to
    the abort.  The function returns when the awaited call settles, with
    what [decideAction] makes of the outcome. *)
Definition decideActionTimed (call : Call) (state : Value) : Answer :=
  if negb openai then Answered 0 (heuristic state)
  else
    match create call None with
    | Settles after outcome => Answered after (decideAction outcome state)
    | Hangs => Stalled
    end.

End Decide.

(** ** The endpoint [POST /agent/act]

    The handler answers 200 with [{ action }], or 400 with
    [{ error: 'agent_error', message }] when anything in its [try] block
    throws. *)

Inductive Response :=
  | Json200 (action : string)
  | Json400 (message : string).

Section Endpoint.

Variable rt : Runtime.
Variable openai : bool.

Definition agentAct (remote : Remote) (body : Value) : Response :=
  let attempt :=
    (* const { state } = req.body || {} *)
    let state := field (if truthy body then body else Obj []) "state" in
    let* validated := validateState state in
    let* action := decideAction rt openai remote validated in
    Return action in
  match attempt with
  | Return action => Json200 action
  | Throw msg =>
      (* e.message || 'Bad request' *)
      Json400 (if String.eqb msg EmptyString then "Bad request" else msg)
  end.

End Endpoint.

End Server.

(** * Vocabulary of the properties *)

Module Spec.

Import Game JS Server.
Local Open Scope string_scope.

(** ** Geometry of a body against a tile *)

(** The tile column that [rectVsTilesMove] probes for a horizontal move:
    the one holding the leading edge at the target position. *)
Definition leadColumn (o : Body) (dx : Q) : Z :=
  tileOf (if Qlt_bool 0 dx then x o + dx + w o else x o + dx)%Q.

(** The tile row that [rectVsTilesMove] probes for a vertical move. *)
Definition leadRow (o : Body) (dy : Q) : Z :=
  tileOf (if Qlt_bool 0 dy then y o + dy + h o else y o + dy)%Q.

(** How far the box [[x, x+w]] reaches into tile column [tx], and the box
    [[y, y+h]] into tile row [ty]; negative when they are apart. *)
Definition depthX (o : Body) (tx : Z) : Q :=
  (Qmin (x o + w o) (inject_Z ((tx + 1) * TILE))
   - Qmax (x o) (inject_Z (tx * TILE)))%Q.
Definition depthY (o : Body) (ty : Z) : Q :=
  (Qmin (y o + h o) (inject_Z ((ty + 1) * TILE))
   - Qmax (y o) (inject_Z (ty * TILE)))%Q.

(** The box overlaps the interior of tile [(tx, ty)] by more than [eps]
    in both directions. *)
Definition overlapsBeyond (eps : Q) (o : Body) (tx ty : Z) : Prop :=
  (eps < depthX o tx)%Q /\ (eps < depthY o ty)%Q.

(** ** Jump input *)

Definition jumpKey (keys : Keys) : bool := Space keys || KeyZ keys.

(** The jump input is down this tick and was not down the tick before. *)
Definition risingEdge (prev cur : Keys) : bool :=
  jumpKey cur && negb (jumpKey prev).

(** ** Goal *)

(** Top of the flagpole as [draw] paints it:
    [fillRect(GOAL_X - CAMERA.x, (LEVEL_H - 11) * TILE - CAMERA.y, 6, TILE * 10)]. *)
Definition flagpoleTop : Z := (LEVEL_H - 11) * TILE.

(** The body as [reset] leaves it and the end of the tick records it. *)
Definition spawned (p : Body) : Body :=
  mkBody (inject_Z (2 * TILE)) (inject_Z (12 * TILE)) (w p) (h p)
         0 0 false 1 false.

(** ** Free fall *)

(** The physics part of a tick: input, integration, gravity, jump, move
    and collide. *)
Definition physicsStep (dt : Q) (keys : Keys) (p : Body) : Body :=
  moveStep dt (beforeMove dt keys p).


(** A body that starts just left of the ledge of the platform at row 17,
    its bottom edge half a pixel below the platform's top, moving right. *)
Definition ledgeBody : Body :=
  mkBody 293 514.5 26 30 180 0 false 1 false.

(** A body about to land on the ground at column 2, and a key table with
    the jump key held. *)
Definition landingBody : Body :=
  mkBody 64 545.8 26 30 0 0 false 1 false.
Definition jumpHeld : Keys := mkKeys false false true false.
Definition noKeys : Keys := mkKeys false false false false.

(** A body standing on the ground next to the goal pillar, and a body
    falling across the goal line. *)
Definition standingAtGoal : Body :=
  mkBody 3715 545.99 26 30 0 0 true 1 true.
Definition fallingAtGoal : Body :=
  mkBody 3711 400 26 30 187 0 false 1 false.



(** ** Snapshot *)

(** [z] is [q] rounded to the nearest integer, halves going up. *)
Definition nearestInteger (z : Z) (q : Q) : Prop :=
  (q - (1 # 2) < inject_Z z)%Q /\ (inject_Z z <= q + (1 # 2))%Q.

(** [grid[r][c]] of a grid of numbers. *)
Definition cellAt (grid : list (list Z)) (r c : nat) : option Z :=
  match grid !! r with
  | Some row => row !! c
  | None => None
  end.

(** The state object the server receives for a snapshot:
    [JSON.stringify({ state })] on the client, [req.body.state] on the
    server. *)
Definition wireState (s : Snapshot) : Value :=
  Obj [("player",
        Obj [("x", Num (inject_Z (view_x (player s))));
             ("y", Num (inject_Z (view_y (player s))));
             ("vx", Num (inject_Z (view_vx (player s))));
             ("vy", Num (inject_Z (view_vy (player s))));
             ("onGround", Bool (view_onGround (player s)))]);
       ("nearGrid",
        Arr (map (fun row => Arr (map (fun v => Num (inject_Z v)) row))
                 (nearGrid s)));
       ("goal", Obj [("x", Num (inject_Z (goal_x s)))])].

(** ** What the server reads off a state *)

Definition stateOnGround (state : Value) : Value :=
  field (field state "player") "onGround".

Definition stateCell (state : Value) (r c : nat) : Value :=
  element (element (field state "nearGrid") r) c.

Definition isNumber (v : Value) (n : Q) : Prop :=
  match v with Num q => (q == n)%Q | _ => False end.

Definition jumpToken (a : string) : Prop :=
  a = "jump" \/ a = "left_jump" \/ a = "right_jump".

(** The condition of the fallback policy, in the words of the design. *)
Definition wantsJump (state : Value) : Prop :=
  stateOnGround state = Bool true
  /\ (isNumber (stateCell state 0 1) 1
      \/ isNumber (stateCell state 0 2) 1
      \/ isNumber (stateCell state 0 0) 0).

(** ** When a state is refused *)

Definition arrayOfAtLeast (n : nat) (v : Value) : Prop :=
  match v with Arr items => (n <= length items)%nat | _ => False end.

Definition Refused (state : Value) : Prop :=
  (* the state is missing or not an object *)
  truthy state = false \/ typeof_object state = false
  (* player.onGround is not a boolean *)
  \/ isBoolean (stateOnGround state) = false
  (* nearGrid is not an array *)
  \/ isArray (field state "nearGrid") = false
  (* nearGrid has fewer than 5 rows *)
  \/ ~ arrayOfAtLeast 5 (field state "nearGrid")
  (* one of the first 5 rows is not an array of at least 9 entries *)
  \/ exists r, (r < 5)%nat
       /\ ~ arrayOfAtLeast 9 (element (field state "nearGrid") r).

(** ** The level, row by row

    The layout [makeLevel] builds, read off its comments: the ground in
    rows 18 and 19 with two gaps in row 18, three platforms, two short
    pillars and the goal pillar. *)
Definition between (lo hi v : Z) : bool := ((lo <=? v) && (v <? hi))%Z.

Definition levelSolid (tx ty : Z) : bool :=
  (negb (between 0 LEVEL_W tx && between 0 LEVEL_H ty)
   || (ty =? 19)
   || ((ty =? 18) && negb (between 48 52 tx || between 70 74 tx))
   || ((ty =? 17) && (between 10 20 tx || between 35 45 tx
                      || (tx =? 60) || (tx =? 85)))
   || ((ty =? 16) && between 22 28 tx)
   || ((tx =? 117) && between 9 18 ty))%Z.

(** ** A body at rest

    The bottom edge of [p] is the epsilon inset above the top of tile row
    [t], as a landing leaves it. *)
Definition restsOn (t : Z) (p : Body) : Prop :=
  (y p + h p == inject_Z (t * TILE) - 0.01)%Q.

(** A completion whose message carries a text, and a runtime that parses
    every text to an object with the action left. *)
Definition completionWith (content : string) : Value :=
  Obj [("choices", Arr [Obj [("message", Obj [("content", Str content)])]])].

Definition leftRuntime : Runtime :=
  mkRuntime (fun _ => Return (Obj [("action", Str "left")]))
            (fun v => match v with
                      | Str s => Return s
                      | _ => Throw "TypeError"
                      end)
            (fun s => s) (fun s => s) (fun s => s) (fun s => s).

(** The state the endpoint validates for a request body. *)
Definition requestState (body : Value) : Value :=
  field (if truthy body then body else Obj []) "state".

End Spec.

(** * Properties *)

Import Game JS Server Spec.

(** ** Rationals *)

Lemma Qlt_bool_iff (a b : Q) : Qlt_bool a b = true <-> (a < b)%Q.
Proof.
  unfold Qlt_bool. rewrite negb_true_iff. split.
  - intros E. apply Qnot_le_lt. intros L.
    apply Qle_bool_iff in L. congruence.
  - intros L. destruct (Qle_bool b a) eqn:E; [|reflexivity].
    apply Qle_bool_iff in E. exfalso. apply (Qlt_not_le _ _ L E).
Qed.

Lemma Qlt_bool_false (a b : Q) : Qlt_bool a b = false <-> (b <= a)%Q.
Proof.
  unfold Qlt_bool. rewrite negb_false_iff. apply Qle_bool_iff.
Qed.

Lemma Qeq_bool_false (a b : Q) : Qeq_bool a b = false <-> ~ (a == b)%Q.
Proof.
  split.
  - intros E H. apply Qeq_bool_iff in H. congruence.
  - intros H. destruct (Qeq_bool a b) eqn:E; [|reflexivity].
    apply Qeq_bool_iff in E. contradiction.
Qed.


Lemma tileOf_spec (a : Q) :
  (inject_Z (tileOf a * TILE) <= a)%Q
  /\ (a < inject_Z ((tileOf a + 1) * TILE))%Q.
Proof.
  unfold tileOf, TILE.
  pose proof (Qfloor_le (a / inject_Z 32)) as Hlo.
  pose proof (Qlt_floor (a / inject_Z 32)) as Hhi.
  assert (E : (a == (a / inject_Z 32) * 32)%Q) by (field; discriminate).
  rewrite !inject_Z_mult, inject_Z_plus in *.
  change (inject_Z 32) with 32%Q in *. change (inject_Z 1) with 1%Q in *.
  set (t := inject_Z (Qfloor (a / 32))) in *.
  set (d := (a / 32)%Q) in *.
  split; lra.
Qed.

(** ** The level *)

Lemma WORLD_makeLevel : WORLD = makeLevel.
Proof. vm_compute. reflexivity. Qed.

Lemma WORLD_shape :
  length WORLD = Z.to_nat LEVEL_H
  /\ Forall (fun row => length row = Z.to_nat LEVEL_W) WORLD.
Proof.
  split; [reflexivity|].
  unfold WORLD. repeat (constructor; [reflexivity|]). constructor.
Qed.

(** Behind the guard of [isSolidTile] both array reads hit a cell. *)
Lemma WORLD_in_range (tx ty : Z) :
  0 <= tx < LEVEL_W -> 0 <= ty < LEVEL_H ->
  exists row v, WORLD !! Z.to_nat ty = Some row /\ row !! Z.to_nat tx = Some v.
Proof.
  intros Hx Hy. destruct WORLD_shape as [Hlen Hrows].
  destruct (lookup_lt_is_Some_2 WORLD (Z.to_nat ty)) as [row Hrow];
    [rewrite Hlen; lia|].
  pose proof (proj1 (Forall_lookup _ _) Hrows _ _ Hrow) as Hw.
  simpl in Hw.
  destruct (lookup_lt_is_Some_2 row (Z.to_nat tx)) as [v Hv];
    [rewrite Hw; lia|].
  eauto.
Qed.

(** C4.  Every integer tile coordinate outside the 120 x 20 grid (column
    negative or at least 120, row negative or at least 20) is solid. *)
Theorem isSolidTile_outside (col row : Z) :
  col < 0 \/ row < 0 \/ col >= 120 \/ row >= 20 ->
  isSolidTile col row = true.
Proof.
  intros Hout. unfold isSolidTile, LEVEL_W, LEVEL_H.
  destruct (Z.ltb_spec col 0); [reflexivity|].
  destruct (Z.ltb_spec row 0); [reflexivity|].
  destruct (Z.geb_spec col 120); [reflexivity|].
  destruct (Z.geb_spec row 20); [reflexivity|].
  lia.
Qed.

Lemma isSolidTile_outside_witness :
  isSolidTile (-1) 5 = true /\ isSolidTile 7 (-3) = true
  /\ isSolidTile 120 0 = true /\ isSolidTile 48 20 = true.
Proof.
  split; [|split; [|split]].
  - apply (isSolidTile_outside (-1) 5). left. lia.
  - apply (isSolidTile_outside 7 (-3)). right. left. lia.
  - apply (isSolidTile_outside 120 0). right. right. left. lia.
  - apply (isSolidTile_outside 48 20). right. right. right. lia.
Defined.

(** ** The perception snapshot *)

(** The filled 5 x 9 grid, cell by cell, for any solidity query. *)
Lemma fillGrid_cell (solid : Z -> Z -> bool) (tx0 ty0 : Z) (r c : nat) :
  (r < 5)%nat -> (c < 9)%nat ->
  cellAt (fillGrid solid tx0 ty0 5 9) r c
  = Some (if solid (tx0 + Z.of_nat c) (ty0 - Z.of_nat r) then 1 else 0).
Proof.
  intros Hr Hc.
  do 5 (destruct r as [|r]; [
    do 9 (destruct c as [|c]; [reflexivity|]); lia |]).
  lia.
Qed.

(** C3.  In the snapshot of any body, the cell of [nearGrid] at row [r],
    column [c] is 1 when [isSolidTile (footCol + c) (footRow - r)] and 0
    otherwise, for all r < 5 and c < 9, with
    footCol = floor((x + w/2) / TILE) and footRow = floor((y + h) / TILE);
    in particular cell (0,0) is the solidity of the foot tile. *)
Theorem snapshot_nearGrid_cell (p : Body) (r c : nat) :
  (r < 5)%nat -> (c < 9)%nat ->
  let footCol := Qfloor ((x p + w p / 2) / inject_Z TILE)%Q in
  let footRow := Qfloor ((y p + h p) / inject_Z TILE)%Q in
  cellAt (nearGrid (snapshotState p)) r c
  = Some (if isSolidTile (footCol + Z.of_nat c) (footRow - Z.of_nat r)
          then 1 else 0).
Proof.
  intros Hr Hc footCol footRow.
  unfold snapshotState. cbn [nearGrid].
  apply (fillGrid_cell isSolidTile (txFeet p) (tyFeet p) r c Hr Hc).
Qed.

Lemma snapshot_nearGrid_cell_witness :
  cellAt (nearGrid (snapshotState player0)) 0 0 = Some 0
  /\ cellAt (nearGrid (snapshotState (set_y player0 546))) 0 0 = Some 1.
Proof.
  split.
  - apply (snapshot_nearGrid_cell player0 0 0); lia.
  - apply (snapshot_nearGrid_cell (set_y player0 546) 0 0); lia.
Defined.

Lemma Math_round_nearest (q : Q) : nearestInteger (Math_round q) q.
Proof.
  unfold nearestInteger, Math_round.
  pose proof (Qfloor_le (q + (1 # 2))) as Hlo.
  pose proof (Qlt_floor (q + (1 # 2))) as Hhi.
  rewrite inject_Z_plus in Hhi. change (inject_Z 1) with 1%Q in Hhi.
  split; lra.
Qed.

(** C9.  The snapshot reports the player's x, y, vx and vy as integers,
    each the simulation value rounded to the nearest integer, and
    onGround as the body's boolean. *)
Theorem snapshot_player_rounded (p : Body) :
  let v := player (snapshotState p) in
  nearestInteger (view_x v) (x p)
  /\ nearestInteger (view_y v) (y p)
  /\ nearestInteger (view_vx v) (vx p)
  /\ nearestInteger (view_vy v) (vy p)
  /\ view_onGround v = onGround p.
Proof.
  cbn. split; [|split; [|split; [|split]]];
    try apply Math_round_nearest.
  reflexivity.
Qed.

(** ** Collision *)

Lemma scan_true_iff (f : Z -> bool) (n : nat) : forall t : Z,
  scan f t n = true <-> exists i, t <= i < t + Z.of_nat n /\ f i = true.
Proof.
  induction n as [|n IH]; intros t.
  - simpl. split; [discriminate|]. intros (i & Hi & _). lia.
  - cbn [scan]. destruct (f t) eqn:Ft.
    + split; [|reflexivity]. intros _. exists t. split; [lia|exact Ft].
    + rewrite IH. split.
      * intros (i & Hi & Fi). exists i. split; [lia|exact Fi].
      * intros (i & Hi & Fi). exists i. split; [|exact Fi].
        assert (i <> t) by (intros ->; congruence). lia.
Qed.

Lemma scanRange_true_iff (f : Z -> bool) (lo hi : Z) :
  scanRange f lo hi = true <-> exists i, lo <= i <= hi /\ f i = true.
Proof.
  unfold scanRange. rewrite scan_true_iff. split.
  - intros (i & Hi & Fi). exists i. split; [lia|exact Fi].
  - intros (i & Hi & Fi). exists i. split; [lia|exact Fi].
Qed.


Lemma rectVsTilesMove_dx_only (o : Body) (dx : Q) :
  rectVsTilesMove o dx 0 = moveX o dx.
Proof. reflexivity. Qed.

Lemma rectVsTilesMove_dy_only (o : Body) (dy : Q) :
  rectVsTilesMove o 0 dy = moveY o dy.
Proof. reflexivity. Qed.

(** The horizontal block writes [x] and [vx] only. *)
Lemma moveX_frame (o : Body) (dx : Q) :
  y (moveX o dx) = y o /\ w (moveX o dx) = w o /\ h (moveX o dx) = h o
  /\ vy (moveX o dx) = vy o /\ onGround (moveX o dx) = onGround o
  /\ facing (moveX o dx) = facing o
  /\ onGroundLast (moveX o dx) = onGroundLast o.
Proof.
  unfold moveX. destruct (Qeq_bool dx 0); [tauto|].
  destruct (scanRange _ _ _); cbn; tauto.
Qed.

(** The vertical block writes [y], [vy] and [onGround] only. *)
Lemma moveY_frame (o : Body) (dy : Q) :
  x (moveY o dy) = x o /\ w (moveY o dy) = w o /\ h (moveY o dy) = h o
  /\ vx (moveY o dy) = vx o /\ facing (moveY o dy) = facing o
  /\ onGroundLast (moveY o dy) = onGroundLast o.
Proof.
  unfold moveY. destruct (Qeq_bool dy 0); [tauto|].
  destruct (scanRange _ _ _); [destruct (Qlt_bool 0 dy)|]; cbn; tauto.
Qed.

Lemma moveX_hit (o : Body) (dx : Q) :
  Qeq_bool dx 0 = false ->
  scanRange (fun ty => isSolidTile (leadColumn o dx) ty)
            (tileOf (y o)) (tileOf (y o + h o - 1)%Q) = true ->
  moveX o dx
  = set_x (set_vx o 0)
          (if Qlt_bool 0 dx
           then (inject_Z (leadColumn o dx * TILE) - w o - 0.01)%Q
           else (inject_Z ((leadColumn o dx + 1) * TILE) + 0.01)%Q).
Proof.
  intros Hdx Hscan. unfold moveX. rewrite Hdx.
  unfold leadColumn in *.
  destruct (Qlt_bool 0 dx); rewrite Hscan; reflexivity.
Qed.

Lemma moveX_clear (o : Body) (dx : Q) :
  Qeq_bool dx 0 = false ->
  scanRange (fun ty => isSolidTile (leadColumn o dx) ty)
            (tileOf (y o)) (tileOf (y o + h o - 1)%Q) = false ->
  moveX o dx = set_x o (x o + dx)%Q.
Proof.
  intros Hdx Hscan. unfold moveX. rewrite Hdx.
  unfold leadColumn in *.
  destruct (Qlt_bool 0 dx); rewrite Hscan; reflexivity.
Qed.

(** C1, as the code has it.  For a horizontal move that is not zero, the
    pass probes the column of the leading edge at the target position, in
    the rows floor(y/TILE) to floor((y+h-1)/TILE).  When one of the probed
    tiles is solid, the move sets vx to 0 and puts the leading edge exactly
    0.01 outside the boundary of that column, so the box stays at least
    0.01 away from the column.  When none of them is solid, the body moves
    by the whole delta and keeps its vx. *)
Theorem moveX_probe (o : Body) (dx : Q) :
  ~ (dx == 0)%Q ->
  let o' := rectVsTilesMove o dx 0 in
  let col := leadColumn o dx in
  let hit := exists ty, tileOf (y o) <= ty <= tileOf (y o + h o - 1)%Q
                        /\ isSolidTile col ty = true in
  (hit ->
   vx o' = 0%Q
   /\ ((0 < dx)%Q -> (x o' + w o' == inject_Z (col * TILE) - 0.01)%Q)
   /\ ((dx < 0)%Q -> (x o' == inject_Z ((col + 1) * TILE) + 0.01)%Q)
   /\ (depthX o' col <= - 0.01)%Q)
  /\ (~ hit -> x o' = (x o + dx)%Q /\ vx o' = vx o).
Proof.
  intros Hdx o' col hit. subst o' col hit.
  rewrite rectVsTilesMove_dx_only.
  apply Qeq_bool_false in Hdx. split.
  - intros Hsolid.
    rewrite (moveX_hit o dx Hdx);
      [|apply scanRange_true_iff; exact Hsolid].
    unfold leadColumn, depthX.
    destruct (Qlt_bool 0 dx) eqn:Hright; cbn [vx x w set_x set_vx].
    + apply Qlt_bool_iff in Hright.
      set (t := tileOf (x o + dx + w o)).
      split; [reflexivity|]. split; [intros _; ring|].
      split; [intros Hneg; lra|].
      pose proof (Q.le_min_l (inject_Z (t * TILE) - w o - 0.01 + w o)
                             (inject_Z ((t + 1) * TILE))) as Hmin.
      pose proof (Q.le_max_r (inject_Z (t * TILE) - w o - 0.01)
                             (inject_Z (t * TILE))) as Hmax.
      lra.
    + apply Qlt_bool_false in Hright.
      set (t := tileOf (x o + dx)).
      split; [reflexivity|]. split; [intros Hpos; lra|].
      split; [intros _; reflexivity|].
      pose proof (Q.le_min_r (inject_Z ((t + 1) * TILE) + 0.01 + w o)
                             (inject_Z ((t + 1) * TILE))) as Hmin.
      pose proof (Q.le_max_l (inject_Z ((t + 1) * TILE) + 0.01)
                             (inject_Z (t * TILE))) as Hmax.
      lra.
  - intros Hclear.
    rewrite (moveX_clear o dx Hdx); [split; reflexivity|].
    destruct (scanRange _ _ _) eqn:E; [|reflexivity].
    apply scanRange_true_iff in E. contradiction.
Qed.

Lemma moveX_probe_witness :
  let o := mkBody 293 515 26 30 180 0 false 1 false in
  let o' := rectVsTilesMove o 3 0 in
  vx o' = 0%Q /\ (x o' + w o' == 319.99)%Q.
Proof.
  intros o o'.
  assert (Hdx : ~ (3 == 0)%Q) by discriminate.
  assert (Hsolid : exists ty,
             tileOf (y o) <= ty <= tileOf (y o + h o - 1)%Q
             /\ isSolidTile (leadColumn o 3) ty = true).
  { exists 17. vm_compute. repeat split; discriminate. }
  destruct (proj1 (moveX_probe o 3 Hdx) Hsolid)
    as (Hvx & Hright & _ & _).
  split; [exact Hvx|].
  apply (Qeq_trans _ _ _ (Hright eq_refl)). reflexivity.
Defined.

(** C1, as stated, fails: [ledgeBody] moves 3px to the right into the
    solid tile (10, 17); its bottom edge is only half a pixel into row 17,
    which the probe (rows up to floor((y+h-1)/TILE) = 16) leaves out.  The
    move is not stopped: vx stays 180 and the box ends 2px by 0.5px inside
    the tile, where it was outside that column before. *)
Lemma moveX_overlap_counterexample :
  let o := ledgeBody in
  let o' := rectVsTilesMove o (vx o * STEP)%Q 0 in
  isSolidTile 10 17 = true
  /\ (depthX o 10 < 0)%Q
  /\ overlapsBeyond 0.01 o' 10 17
  /\ (x o' + w o' == inject_Z (10 * TILE) + 2)%Q
  /\ ~ (vx o' == 0)%Q.
Proof.
  cbv zeta. split; [reflexivity|].
  split; [vm_compute; reflexivity|].
  split; [split; vm_compute; reflexivity|].
  split; [vm_compute; reflexivity|].
  vm_compute. discriminate.
Qed.

(** ** The tick *)

(** What the steps before the move leave of the body. *)
Lemma beforeMove_frame (dt : Q) (keys : Keys) (p : Body) :
  let b := beforeMove dt keys p in
  x b = x p /\ y b = y p /\ w b = w p /\ h b = h p
  /\ onGround b = false /\ onGroundLast b = onGroundLast p.
Proof.
  unfold beforeMove, inputStep, jumpStep.
  destruct (ArrowLeft keys), (ArrowRight keys), (Space keys), (KeyZ keys),
    (onGroundLast p) eqn:E; cbn; rewrite ?E; tauto.
Qed.

Lemma beforeMove_vy (dt : Q) (keys : Keys) (p : Body) :
  vy (beforeMove dt keys p)
  = if jumpKey keys && onGroundLast p
    then JUMP_VY
    else (vy p + GRAVITY * dt)%Q.
Proof.
  unfold beforeMove, inputStep, jumpStep, jumpKey.
  destruct (ArrowLeft keys), (ArrowRight keys), (Space keys), (KeyZ keys),
    (onGroundLast p) eqn:E; cbn; rewrite ?E; reflexivity.
Qed.

(** C2, as the code has it.  The vertical velocity with which the body
    enters the move of a tick is JUMP_VY exactly when a jump key (Space or
    KeyZ) is down in this tick and onGroundLast is true, and the previous
    vy plus gravity otherwise; the key table of the previous tick plays no
    part.  onGroundLast is the grounded state the previous tick ended
    with. *)
Theorem jump_impulse_rule (dt : Q) (keys : Keys) (p : Body) :
  vy (beforeMove dt keys p)
  = (if jumpKey keys && onGroundLast p
     then JUMP_VY
     else (vy p + GRAVITY * dt)%Q)
  /\ onGroundLast (update dt keys p) = onGround (update dt keys p).
Proof.
  split; [apply beforeMove_vy|reflexivity].
Qed.

(** C2, as stated, fails: with the jump key held through two ticks,
    [landingBody] lands in the first tick and is given the impulse in the
    second, where the input has no rising edge; it leaves the ground. *)
Lemma held_jump_counterexample :
  let p1 := update STEP jumpHeld landingBody in
  let p2 := update STEP jumpHeld p1 in
  risingEdge jumpHeld jumpHeld = false
  /\ onGroundLast p1 = true
  /\ vy (beforeMove STEP jumpHeld p1) = JUMP_VY
  /\ vy p2 = JUMP_VY
  /\ (y p2 < y p1)%Q.
Proof.
  cbv zeta. split; [reflexivity|]. split; [vm_compute; reflexivity|].
  split; [vm_compute; reflexivity|]. split; vm_compute; reflexivity.
Qed.

Lemma physicsStep_size (dt : Q) (keys : Keys) (p : Body) :
  w (physicsStep dt keys p) = w p /\ h (physicsStep dt keys p) = h p.
Proof.
  unfold physicsStep, moveStep.
  rewrite rectVsTilesMove_dy_only, rectVsTilesMove_dx_only.
  destruct (beforeMove_frame dt keys p) as (_ & _ & Hw & Hh & _).
  set (b := beforeMove dt keys p) in *.
  destruct (moveX_frame b (vx b * dt)) as (_ & Hw1 & Hh1 & _).
  set (q := moveX b (vx b * dt)) in *.
  destruct (moveY_frame q (vy q * dt)) as (_ & Hw2 & Hh2 & _).
  split; congruence.
Qed.

Lemma reachedGoal_iff (q : Body) :
  reachedGoal q = true
  <-> (inject_Z (GOAL_X - TILE) < x q)%Q
      /\ (y q < inject_Z ((LEVEL_H - 3) * TILE))%Q.
Proof.
  unfold reachedGoal. rewrite andb_true_iff, !Qlt_bool_iff. tauto.
Qed.

(** C7, as the code has it.  With [q] the body after the physics of the
    tick: when x of [q] exceeds GOAL_X - TILE and y of [q] is less than
    (LEVEL_H - 3) * TILE = 544, the tick ends with the body in its spawn
    state (x = 2 tiles, y = 12 tiles, vx = vy = 0, onGround = false,
    facing = 1, size kept); otherwise the tick ends with [q] itself, only
    onGroundLast recorded. *)
Theorem update_goal_reset (dt : Q) (keys : Keys) (p : Body) :
  let q := physicsStep dt keys p in
  ((inject_Z (GOAL_X - TILE) < x q)%Q
   /\ (y q < inject_Z ((LEVEL_H - 3) * TILE))%Q ->
   update dt keys p = spawned p)
  /\ (~ ((inject_Z (GOAL_X - TILE) < x q)%Q
         /\ (y q < inject_Z ((LEVEL_H - 3) * TILE))%Q) ->
      update dt keys p = set_onGroundLast q (onGround q)).
Proof.
  intros q. unfold update. fold (physicsStep dt keys p). fold q.
  unfold winStep. split.
  - intros Hgoal. apply reachedGoal_iff in Hgoal. rewrite Hgoal.
    destruct (physicsStep_size dt keys p) as [Hw Hh]. fold q in Hw, Hh.
    clearbody q. destruct q. cbn in Hw, Hh. subst. reflexivity.
  - intros Hno. destruct (reachedGoal q) eqn:E; [|reflexivity].
    apply reachedGoal_iff in E. contradiction.
Qed.

Lemma update_goal_reset_witness :
  update STEP noKeys fallingAtGoal = spawned fallingAtGoal
  /\ update STEP noKeys standingAtGoal
     = set_onGroundLast (physicsStep STEP noKeys standingAtGoal)
         (onGround (physicsStep STEP noKeys standingAtGoal)).
Proof.
  split.
  - apply (update_goal_reset STEP noKeys fallingAtGoal).
    split; vm_compute; reflexivity.
  - apply (update_goal_reset STEP noKeys standingAtGoal).
    intros [_ Hy]. vm_compute in Hy. discriminate.
Defined.

(** C7, as stated, fails: [standingAtGoal] stands on the ground beside the
    goal pillar, its x beyond GOAL_X - TILE and its box below the top of
    the flagpole, before and after the tick, and the tick does not reset
    it. *)
Lemma goal_reset_counterexample :
  let p := standingAtGoal in
  let q := update STEP noKeys p in
  (inject_Z (GOAL_X - TILE) < x p)%Q /\ (inject_Z flagpoleTop < y p)%Q
  /\ (inject_Z (GOAL_X - TILE) < x q)%Q /\ (inject_Z flagpoleTop < y q)%Q
  /\ (x q == x p)%Q /\ (y q == y p)%Q
  /\ ~ (x q == inject_Z (2 * TILE))%Q.
Proof.
  cbv zeta. repeat (split; [vm_compute; reflexivity|]).
  vm_compute. discriminate.
Qed.

(** ** Free fall *)







(** ** Reading properties never throws behind a guard *)

Lemma truthy_not_nullish (v : Value) : truthy v = true -> nullish v = false.
Proof. destruct v; simpl; congruence. Qed.

Lemma falsy_no_fields (v : Value) (k : string) :
  truthy v = false -> field v k = Undefined.
Proof. destruct v; simpl; congruence. Qed.

Lemma member_defined (v : Value) (k : string) :
  nullish v = false -> member v k = Return (field v k).
Proof. unfold member. intros ->. reflexivity. Qed.

Lemma index_defined (v : Value) (i : nat) :
  nullish v = false -> index v i = Return (element v i).
Proof. unfold index. intros ->. reflexivity. Qed.

Lemma optMember_field (v : Value) (k : string) :
  optMember v k = Return (field v k).
Proof. destruct v; reflexivity. Qed.

Lemma optIndex_element (v : Value) (i : nat) :
  optIndex v i = Return (element v i).
Proof. destruct v; reflexivity. Qed.

(** ** [validateState] *)

Lemma row_check (row : Value) :
  negb (isArray row)
  || (match row with Arr items => length items <? 9 | _ => true end)%nat
  = false
  <-> arrayOfAtLeast 9 row.
Proof.
  destruct row; simpl; try (split; [discriminate|tauto]).
  rewrite Nat.ltb_ge. tauto.
Qed.

Lemma checkRows_cases (rows : list Value) (n : nat) : forall r : nat,
  (checkRows (Arr rows) r n = Return tt
   /\ forall i, (r <= i < r + n)%nat ->
                arrayOfAtLeast 9 (element (Arr rows) i))
  \/ (exists msg, checkRows (Arr rows) r n = Throw msg)
     /\ exists i, (r <= i < r + n)%nat
                  /\ ~ arrayOfAtLeast 9 (element (Arr rows) i).
Proof.
  induction n as [|n IH]; intros r.
  - left. split; [reflexivity|]. intros i Hi. lia.
  - cbn [checkRows]. rewrite index_defined by reflexivity. cbn [bind].
    set (row := element (Arr rows) r).
    destruct (negb (isArray row) || _) eqn:E.
    + right. split; [eauto|]. exists r. split; [lia|].
      intros Hok. apply row_check in Hok. fold row in Hok. congruence.
    + apply row_check in E. destruct (IH (S r)) as [[Hret Hall]|[Hthrow Hbad]].
      * left. split; [exact Hret|]. intros i Hi.
        destruct (Nat.eq_dec i r) as [->|Hne]; [exact E|].
        apply Hall. lia.
      * right. split; [exact Hthrow|].
        destruct Hbad as (i & Hi & Hbad). exists i. split; [lia|exact Hbad].
Qed.

Lemma player_onGround_read (state : Value) :
  let player := field state "player" in
  field (if truthy player then player else Obj []) "onGround"
  = stateOnGround state.
Proof.
  cbv zeta. unfold stateOnGround.
  destruct (truthy (field state "player")) eqn:E; [reflexivity|].
  rewrite (falsy_no_fields _ "onGround" E). reflexivity.
Qed.

(** [validateState] either returns its argument, and then none of the
    reasons for refusal holds, or throws, and then one of them holds. *)
Lemma validateState_cases (state : Value) :
  (validateState state = Return state /\ ~ Refused state)
  \/ (exists msg, validateState state = Throw msg) /\ Refused state.
Proof.
  unfold validateState, Refused.
  destruct (truthy state) eqn:Ht; cbn [negb orb];
    [|right; split; [eauto|left; reflexivity]].
  destruct (typeof_object state) eqn:Ho; cbn [negb];
    [|right; split; [eauto|right; left; reflexivity]].
  pose proof (truthy_not_nullish _ Ht) as Hn.
  rewrite !(member_defined state) by exact Hn. cbn [bind].
  set (player := field state "player").
  assert (Hp : nullish (if truthy player then player else Obj []) = false).
  { destruct (truthy player) eqn:E; [|reflexivity].
    apply truthy_not_nullish. exact E. }
  rewrite (member_defined _ "onGround" Hp). cbn [bind].
  subst player. rewrite (player_onGround_read state).
  destruct (isBoolean (stateOnGround state)) eqn:Hb; cbn [negb];
    [|right; split; [eauto|right; right; left; reflexivity]].
  destruct (field state "nearGrid") as [| |b|q|str|rows|fs] eqn:Hg;
    try (right; split; [eauto|do 3 right; left; reflexivity]).
  destruct (Nat.ltb_spec (length rows) 5) as [Hlt|Hge].
  { right. split; [eauto|]. do 4 right. left. simpl. lia. }
  destruct (checkRows_cases rows 5 0) as [[Hret Hall]|[[msg Hthrow] Hbad]].
  - left. rewrite Hret. cbn [bind]. split; [reflexivity|].
    intros [H|[H|[H|[H|[H|H]]]]]; try congruence.
    + simpl in H. discriminate.
    + apply H. simpl. lia.
    + destruct H as (r & Hr & Hbad). apply Hbad. apply Hall. lia.
  - right. rewrite Hthrow. cbn [bind]. split; [eauto|].
    do 5 right. destruct Hbad as (i & Hi & Hbad). exists i.
    split; [lia|exact Hbad].
Qed.

(** C10.  [validateState] throws exactly when the state is missing or not
    an object, player.onGround is not a boolean, nearGrid is not an array,
    nearGrid has fewer than 5 rows, or one of its first 5 rows is not an
    array of at least 9 entries; every other state is returned unchanged,
    whatever the size of the grid beyond 5 x 9 and whatever its cells
    hold. *)
Theorem validateState_throws_iff (state : Value) :
  ((exists msg, validateState state = Throw msg) <-> Refused state)
  /\ (~ Refused state <-> validateState state = Return state).
Proof.
  destruct (validateState_cases state) as [[Hret Hok]|[[msg Hthrow] Hbad]].
  - split; split.
    + intros [msg Hthrow]. congruence.
    + intros Hbad. contradiction.
    + intros _. exact Hret.
    + intros _. exact Hok.
  - split; split.
    + intros _. exact Hbad.
    + intros _. eauto.
    + intros Hok. contradiction.
    + intros Hret. congruence.
Qed.

(** A state with a boolean onGround and a 5 x 9 grid whose cells are not
    all 0 or 1, in a grid of 6 rows and 10 columns, is returned as it is. *)
Example validateState_accepts_larger_grid :
  let row := Arr (replicate 10 (Str "x")) in
  let state := Obj [("player", Obj [("onGround", Bool false)]);
                    ("nearGrid", Arr (replicate 6 row))] in
  validateState state = Return state.
Proof. reflexivity. Qed.

(** ** [heuristic] *)

(** The grid the heuristic reads: [state?.nearGrid || []]. *)
Lemma heuristic_eq (state : Value) :
  let ng := field state "nearGrid" in
  let g := if truthy ng then ng else Arr [] in
  heuristic state
  = Return (if truthy (stateOnGround state)
               && (strictEqNum (element (element g 0) 1) 1
                   || strictEqNum (element (element g 0) 2) 1
                   || strictEqNum (element (element g 0) 0) 0)
            then "right_jump" else "right").
Proof.
  cbv zeta. unfold heuristic, stateOnGround.
  repeat (rewrite optMember_field; cbn [bind]).
  set (g := if truthy (field state "nearGrid")
            then field state "nearGrid" else Arr []).
  assert (Hg : nullish g = false).
  { subst g. destruct (truthy (field state "nearGrid")) eqn:E; [|reflexivity].
    apply truthy_not_nullish. exact E. }
  repeat (first [rewrite optIndex_element | rewrite (index_defined g 0 Hg)];
          cbn [bind]).
  destruct (strictEqNum (element (element g 0) 1) 1); cbn [bind orb];
    repeat (first [rewrite optIndex_element | rewrite (index_defined g 0 Hg)];
            cbn [bind]);
    match goal with |- (if ?c then _ else _) = _ => destruct c end;
    reflexivity.
Qed.

Lemma heuristic_total (state : Value) :
  exists a, heuristic state = Return a /\ (a = "right" \/ a = "right_jump").
Proof.
  rewrite heuristic_eq. cbv zeta.
  destruct (truthy (stateOnGround state) && _); eauto.
Qed.

Lemma strictEqNum_iff (v : Value) (n : Q) :
  strictEqNum v n = true <-> isNumber v n.
Proof.
  destruct v; simpl; try (split; [discriminate|tauto]).
  apply Qeq_bool_iff.
Qed.

(** What a validated state is known to hold. *)
Lemma validated_shape (state : Value) :
  validateState state = Return state ->
  (exists b, stateOnGround state = Bool b)
  /\ (exists rows, field state "nearGrid" = Arr rows).
Proof.
  intros Hret.
  destruct (validateState_cases state) as [[_ Hok]|[[msg Hthrow] _]];
    [|congruence].
  split.
  - destruct (stateOnGround state) as [| |b|q|str|items|fs] eqn:E;
      try (exfalso; apply Hok; right; right; left; rewrite E; reflexivity).
    eauto.
  - destruct (field state "nearGrid") as [| |b|q|str|rows|fs] eqn:E;
      try (exfalso; apply Hok; do 3 right; left; rewrite E; reflexivity).
    eauto.
Qed.

(** C5.  On a validated state the fallback heuristic returns exactly
    right_jump when onGround is true and (nearGrid[0][1] is 1 or
    nearGrid[0][2] is 1 or nearGrid[0][0] is 0), and exactly right
    otherwise; with onGround false its output is not a jump token. *)
Theorem heuristic_rule (state : Value) :
  validateState state = Return state ->
  (wantsJump state -> heuristic state = Return "right_jump")
  /\ (~ wantsJump state -> heuristic state = Return "right")
  /\ (stateOnGround state = Bool false ->
      exists a, heuristic state = Return a /\ ~ jumpToken a).
Proof.
  intros Hvalid.
  destruct (validated_shape state Hvalid) as [[b Hb] [rows Hrows]].
  rewrite heuristic_eq. cbv zeta. unfold wantsJump, stateCell.
  rewrite Hb, Hrows. cbn [truthy].
  set (c1 := element (element (Arr rows) 0) 1).
  set (c2 := element (element (Arr rows) 0) 2).
  set (c0 := element (element (Arr rows) 0) 0).
  pose proof (strictEqNum_iff c1 1) as H1.
  pose proof (strictEqNum_iff c2 1) as H2.
  pose proof (strictEqNum_iff c0 0) as H0.
  split; [|split].
  - intros [Hog Hcells]. injection Hog as ->.
    destruct Hcells as [Hc|[Hc|Hc]].
    + apply H1 in Hc. rewrite Hc. reflexivity.
    + apply H2 in Hc. rewrite Hc, orb_true_r. reflexivity.
    + apply H0 in Hc. rewrite Hc, !orb_true_r. reflexivity.
  - intros Hno. destruct b; [|reflexivity].
    destruct (strictEqNum c1 1) eqn:E1;
      [exfalso; apply Hno; split; [reflexivity|left; apply H1; reflexivity]|].
    destruct (strictEqNum c2 1) eqn:E2;
      [exfalso; apply Hno; split;
         [reflexivity|right; left; apply H2; reflexivity]|].
    destruct (strictEqNum c0 0) eqn:E0;
      [exfalso; apply Hno; split;
         [reflexivity|right; right; apply H0; reflexivity]|].
    reflexivity.
  - intros Hog. injection Hog as ->. cbn [andb].
    exists "right". split; [reflexivity|].
    intros [H|[H|H]]; discriminate.
Qed.

Lemma heuristic_rule_witness :
  let state := wireState (snapshotState (update STEP noKeys landingBody)) in
  heuristic state = Return "right_jump"
  /\ heuristic (wireState (snapshotState player0)) = Return "right".
Proof.
  split.
  - apply (heuristic_rule
             (wireState (snapshotState (update STEP noKeys landingBody)))).
    + vm_compute. reflexivity.
    + split; [vm_compute; reflexivity|].
      right. right. vm_compute. reflexivity.
  - apply (heuristic_rule (wireState (snapshotState player0))).
    + vm_compute. reflexivity.
    + intros [Hog _]. vm_compute in Hog. discriminate.
Defined.

(** ** [decideAction] *)

Lemma ACTIONS_has_In (a : string) : ACTIONS_has a = true -> In a ACTIONS.
Proof.
  unfold ACTIONS_has. rewrite existsb_exists.
  intros (b & Hin & Heq). apply String.eqb_eq in Heq. subst. exact Hin.
Qed.

Lemma heuristic_in_ACTIONS (state : Value) :
  exists a, heuristic state = Return a /\ In a ACTIONS.
Proof.
  destruct (heuristic_total state) as (a & Hret & [->| ->]);
    eexists; (split; [exact Hret|]); simpl; tauto.
Qed.

(** For a remote call that settles: whatever the state, the configuration
    and the outcome, [decideAction] returns (it does not throw) one of the
    six tokens.  The token is the normalised remote one only when the
    client is configured, the call was fulfilled, the parse went through
    and the lower-cased token is one of the six; in every other case
    (client not configured, rejection, malformed JSON, any thrown error, a
    missing or unknown token) it is the output of the heuristic. *)
Lemma decideAction_total (rt : Runtime) (openai : bool)
                           (remote : Remote) (state : Value) :
  exists a,
    decideAction rt openai remote state = Return a
    /\ In a ACTIONS
    /\ (heuristic state = Return a
        \/ (openai = true /\ remoteAction rt remote = Return a
            /\ ACTIONS_has a = true))
    /\ (openai = false
        \/ (exists msg, remoteAction rt remote = Throw msg)
        \/ (exists a', remoteAction rt remote = Return a'
                       /\ ACTIONS_has a' = false) ->
        heuristic state = Return a).
Proof.
  destruct (heuristic_in_ACTIONS state) as (f & Hf & Hin).
  unfold decideAction, askRemote. destruct openai; cbn [negb].
  - destruct (remoteAction rt remote) as [a|msg] eqn:Hr; cbn [bind tryCatch].
    + destruct (ACTIONS_has a) eqn:Ha.
      * exists a. split; [reflexivity|]. split; [apply ACTIONS_has_In, Ha|].
        split; [right; tauto|].
        intros [H|[[msg H]|(a' & H & Hno)]]; try discriminate.
        injection H as <-. congruence.
      * rewrite Hf. cbn [tryCatch]. exists f. tauto.
    + rewrite Hf. exists f. tauto.
  - rewrite Hf. exists f. tauto.
Qed.

(** What the fuse would do were it wired: a signal in the options of
    [create] that aborts after [fuse] ms turns every call that has not
    settled by then into a rejection at that moment. *)
Lemma create_with_signal (call : Call) (fuse : Z) :
  exists after outcome,
    create call (Some fuse) = Settles after outcome
    /\ (after <= fuse \/ call = Settles after outcome).
Proof.
  destruct call as [after outcome|]; cbn [create].
  - destruct (Z.leb_spec after fuse).
    + exists after, outcome. split; [reflexivity|left; assumption].
    + exists fuse, (Rejected "timeout"). split; [reflexivity|left; lia].
  - exists fuse, (Rejected "timeout"). split; [reflexivity|left; lia].
Qed.

(** C6.  The 2500 ms fuse does not cut the remote call.  With the client
    configured, a call that is fulfilled after any time, later than 2500 ms
    included, with a token that normalises to one of the six makes
    [decideAction] return that token at that time, not the output of the
    heuristic; and a call that never settles leaves [decideAction]
    waiting. *)
Theorem late_remote_token_is_accepted (rt : Runtime) (state : Value)
                                      (after : Z) (completion : Value)
                                      (a : string) :
  2500 < after ->
  remoteAction rt (Resolved completion) = Return a ->
  ACTIONS_has a = true ->
  decideActionTimed rt true (Settles after (Resolved completion)) state
  = Answered after (Return a)
  /\ decideActionTimed rt true Hangs state = Stalled.
Proof.
  intros _ Hremote Htoken. split; [|reflexivity].
  unfold decideActionTimed, decideAction, askRemote. cbn [negb create].
  rewrite Hremote. cbn [bind]. rewrite Htoken. reflexivity.
Qed.

Lemma late_remote_token_is_accepted_witness :
  let state := wireState (snapshotState player0) in
  decideActionTimed leftRuntime true
    (Settles 10000 (Resolved (completionWith "left"))) state
  = Answered 10000 (Return "left")
  /\ heuristic state = Return "right".
Proof.
  intros state. split; [|vm_compute; reflexivity].
  apply (late_remote_token_is_accepted leftRuntime state 10000
           (completionWith "left") "left").
  - lia.
  - reflexivity.
  - reflexivity.
Defined.

(** * Further properties of the client *)

(** ** Tiles *)

(** [tileOf a] is the only tile whose span holds [a]. *)
Lemma tileOf_unique (a : Q) (t : Z) :
  (inject_Z (t * TILE) <= a)%Q -> (a < inject_Z ((t + 1) * TILE))%Q ->
  tileOf a = t.
Proof.
  intros Hlo Hhi. destruct (tileOf_spec a) as [Slo Shi].
  set (s := tileOf a) in *. unfold TILE in *.
  rewrite !inject_Z_mult, !inject_Z_plus in *.
  change (inject_Z 32) with 32%Q in *. change (inject_Z 1) with 1%Q in *.
  assert (H1 : (inject_Z s < inject_Z (t + 1))%Q)
    by (rewrite inject_Z_plus; change (inject_Z 1) with 1%Q; lra).
  assert (H2 : (inject_Z t < inject_Z (s + 1))%Q)
    by (rewrite inject_Z_plus; change (inject_Z 1) with 1%Q; lra).
  rewrite <- Zlt_Qlt in H1, H2. lia.
Qed.

Lemma tileOf_le (a b : Q) : (a <= b)%Q -> tileOf a <= tileOf b.
Proof.
  intros Hab. unfold tileOf. apply Qfloor_resp_le.
  unfold TILE. change (inject_Z 32) with 32%Q.
  unfold Qdiv. apply Qmult_le_compat_r; [exact Hab|discriminate].
Qed.

(** Less than one tile further is the same tile or the next. *)
Lemma tileOf_next (a b : Q) :
  (a <= b)%Q -> (b < a + inject_Z TILE)%Q ->
  tileOf a <= tileOf b <= tileOf a + 1.
Proof.
  intros Hab Hnear. split; [apply tileOf_le; exact Hab|].
  destruct (tileOf_spec a) as [_ Ahi]. destruct (tileOf_spec b) as [Blo _].
  set (s := tileOf a) in *. set (t := tileOf b) in *. unfold TILE in *.
  rewrite !inject_Z_mult, !inject_Z_plus in *.
  change (inject_Z 32) with 32%Q in *. change (inject_Z 1) with 1%Q in *.
  assert (H : (inject_Z t < inject_Z (s + 2))%Q)
    by (rewrite inject_Z_plus; change (inject_Z 2) with 2%Q; lra).
  rewrite <- Zlt_Qlt in H. lia.
Qed.

(** ** The vertical pass *)

Lemma moveY_hit (o : Body) (dy : Q) :
  Qeq_bool dy 0 = false ->
  scanRange (fun tx => isSolidTile tx (leadRow o dy))
            (tileOf (x o)) (tileOf (x o + w o - 1)%Q) = true ->
  moveY o dy
  = set_y (if Qlt_bool 0 dy
           then set_onGround (set_vy o 0) true
           else set_vy o 0)
          (if Qlt_bool 0 dy
           then (inject_Z (leadRow o dy * TILE) - h o - 0.01)%Q
           else (inject_Z ((leadRow o dy + 1) * TILE) + 0.01)%Q).
Proof.
  intros Hdy Hscan. unfold moveY. rewrite Hdy.
  unfold leadRow in *.
  destruct (Qlt_bool 0 dy); rewrite Hscan; reflexivity.
Qed.

Lemma moveY_clear (o : Body) (dy : Q) :
  Qeq_bool dy 0 = false ->
  scanRange (fun tx => isSolidTile tx (leadRow o dy))
            (tileOf (x o)) (tileOf (x o + w o - 1)%Q) = false ->
  moveY o dy = set_y o (y o + dy)%Q.
Proof.
  intros Hdy Hscan. unfold moveY. rewrite Hdy.
  unfold leadRow in *.
  destruct (Qlt_bool 0 dy); rewrite Hscan; reflexivity.
Qed.

(** X1.  For a vertical move that is not zero, the pass probes the row of
    the leading edge at the target position under the columns
    floor(x/TILE) to floor((x+w-1)/TILE).  When one of the probed tiles is
    solid, vy becomes 0 and the leading edge ends exactly 0.01 outside that
    row; onGround becomes true for a downward move and is left as it was
    for an upward one.  When none is solid, the body moves by the whole
    delta and keeps vy and onGround. *)
Theorem moveY_probe (o : Body) (dy : Q) :
  ~ (dy == 0)%Q ->
  let o' := rectVsTilesMove o 0 dy in
  let row := leadRow o dy in
  let hit := exists tx, tileOf (x o) <= tx <= tileOf (x o + w o - 1)%Q
                        /\ isSolidTile tx row = true in
  (hit ->
   vy o' = 0%Q
   /\ ((0 < dy)%Q ->
       (y o' + h o' == inject_Z (row * TILE) - 0.01)%Q
       /\ onGround o' = true)
   /\ ((dy < 0)%Q ->
       (y o' == inject_Z ((row + 1) * TILE) + 0.01)%Q
       /\ onGround o' = onGround o))
  /\ (~ hit ->
      y o' = (y o + dy)%Q /\ vy o' = vy o /\ onGround o' = onGround o).
Proof.
  intros Hdy o' row hit. subst o' row hit.
  rewrite rectVsTilesMove_dy_only.
  apply Qeq_bool_false in Hdy. split.
  - intros Hsolid.
    rewrite (moveY_hit o dy Hdy);
      [|apply scanRange_true_iff; exact Hsolid].
    destruct (Qlt_bool 0 dy) eqn:Hdown;
      cbn [vy y h onGround set_y set_vy set_onGround].
    + apply Qlt_bool_iff in Hdown.
      split; [reflexivity|]. split.
      * intros _. split; [ring|reflexivity].
      * intros Hneg. lra.
    + apply Qlt_bool_false in Hdown.
      split; [reflexivity|]. split.
      * intros Hpos. lra.
      * intros _. split; reflexivity.
  - intros Hclear.
    rewrite (moveY_clear o dy Hdy); [repeat split|].
    destruct (scanRange _ _ _) eqn:E; [|reflexivity].
    apply scanRange_true_iff in E. contradiction.
Qed.

Lemma moveY_probe_witness :
  let o := mkBody 64 545.8 26 30 0 30 false 1 false in
  let o' := rectVsTilesMove o 0 0.5 in
  vy o' = 0%Q /\ (y o' + h o' == 575.99)%Q /\ onGround o' = true.
Proof.
  intros o o'.
  assert (Hdy : ~ (0.5 == 0)%Q) by discriminate.
  assert (Hsolid : exists tx,
             tileOf (x o) <= tx <= tileOf (x o + w o - 1)%Q
             /\ isSolidTile tx (leadRow o 0.5) = true).
  { exists 2. vm_compute. repeat split; discriminate. }
  destruct (proj1 (moveY_probe o 0.5 Hdy) Hsolid) as (Hvy & Hdown & _).
  destruct (Hdown eq_refl) as [Hy Hog].
  split; [exact Hvy|]. split; [|exact Hog].
  apply (Qeq_trans _ _ _ Hy). reflexivity.
Defined.

(** Where a landing leaves the body. *)
Lemma moveY_landing (o : Body) (dy : Q) :
  (0 < dy)%Q ->
  (exists tx, tileOf (x o) <= tx <= tileOf (x o + w o - 1)%Q
              /\ isSolidTile tx (leadRow o dy) = true) ->
  restsOn (leadRow o dy) (moveY o dy)
  /\ vy (moveY o dy) = 0%Q /\ onGround (moveY o dy) = true.
Proof.
  intros Hdy Hsolid.
  assert (E0 : Qeq_bool dy 0 = false).
  { apply Qeq_bool_false. intros E. rewrite E in Hdy.
    exact (Qlt_irrefl 0 Hdy). }
  rewrite (moveY_hit o dy E0); [|apply scanRange_true_iff; exact Hsolid].
  apply Qlt_bool_iff in Hdy. rewrite Hdy. unfold restsOn.
  cbn [vy y h onGround set_y set_vy set_onGround].
  split; [ring|]. split; reflexivity.
Qed.

Lemma restsOn_rows (t : Z) (p : Body) :
  restsOn t p ->
  tileOf (y p + h p) = t - 1 /\ tileOf (y p + h p - 1) = t - 1.
Proof.
  unfold restsOn. intros Hrest.
  assert (Ht : (inject_Z (t - 1) == inject_Z t - 1)%Q).
  { unfold Z.sub. rewrite inject_Z_plus, inject_Z_opp. reflexivity. }
  split; apply tileOf_unique; unfold TILE in *;
    rewrite ?inject_Z_mult, ?inject_Z_plus, ?Ht in *;
    rewrite Hrest;
    change (inject_Z 32) with 32%Q; change (inject_Z 1) with 1%Q; lra.
Qed.

(** X2.  After a landing on tile row [row] the bottom edge of the body
    lies in row [row - 1]: the rows the next horizontal pass probes end at
    [row - 1], so the floor is not taken for a wall, and the foot row of
    the snapshot is [row - 1], the row above the floor. *)
Theorem landing_stays_above_floor (o : Body) (dy : Q) :
  (0 < dy)%Q ->
  (exists tx, tileOf (x o) <= tx <= tileOf (x o + w o - 1)%Q
              /\ isSolidTile tx (leadRow o dy) = true) ->
  let o' := rectVsTilesMove o 0 dy in
  let row := leadRow o dy in
  tileOf (y o' + h o' - 1) = row - 1 /\ tyFeet o' = row - 1.
Proof.
  intros Hdy Hsolid o' row. subst o' row.
  rewrite rectVsTilesMove_dy_only.
  destruct (moveY_landing o dy Hdy Hsolid) as (Hrest & _ & _).
  destruct (restsOn_rows _ _ Hrest) as [Hfeet Hbot].
  split; [exact Hbot|exact Hfeet].
Qed.

Lemma landing_stays_above_floor_witness :
  let o := mkBody 64 545.8 26 30 0 30 false 1 false in
  tyFeet (rectVsTilesMove o 0 0.5) = 17.
Proof.
  intros o.
  assert (Hsolid : exists tx,
             tileOf (x o) <= tx <= tileOf (x o + w o - 1)%Q
             /\ isSolidTile tx (leadRow o 0.5) = true).
  { exists 2. vm_compute. repeat split; discriminate. }
  exact (proj2 (landing_stays_above_floor o 0.5 eq_refl Hsolid)).
Defined.

(** X3.  Standing is stable.  Take a step long enough for gravity to
    carry the body at least the 0.01 inset and less than a tile
    (0.01 <= GRAVITY dt^2 < 32, as the fixed step 1/60 is).  A body at rest
    on row [t] with vy 0, to which the tick applies no jump impulse and
    which still has a solid tile of row [t] under its columns after its
    horizontal move, ends the physics of the tick grounded, with vy 0, at
    the same height. *)
Theorem standing_is_stable (dt : Q) (keys : Keys) (p : Body) (t : Z) :
  (0 < dt)%Q ->
  (0.01 <= GRAVITY * dt * dt)%Q -> (GRAVITY * dt * dt < 32)%Q ->
  restsOn t p -> (vy p == 0)%Q ->
  jumpKey keys && onGroundLast p = false ->
  (let q := moveX (beforeMove dt keys p) (vx (beforeMove dt keys p) * dt) in
   exists tx, tileOf (x q) <= tx <= tileOf (x q + w q - 1)%Q
              /\ isSolidTile tx t = true) ->
  let p' := physicsStep dt keys p in
  onGround p' = true /\ vy p' = 0%Q /\ (y p' == y p)%Q /\ restsOn t p'.
Proof.
  intros Hdt Hmin Hmax Hrest Hvy Hnojump Hfloor p'. subst p'.
  cbv zeta in Hfloor. unfold physicsStep, moveStep.
  pose proof (beforeMove_vy dt keys p) as Hjump. rewrite Hnojump in Hjump.
  destruct (beforeMove_frame dt keys p) as (_ & Hy & _ & Hh & _ & _).
  set (b := beforeMove dt keys p) in *.
  rewrite rectVsTilesMove_dx_only, rectVsTilesMove_dy_only.
  destruct (moveX_frame b (vx b * dt)) as (Hy1 & _ & Hh1 & Hvy1 & _).
  set (q := moveX b (vx b * dt)) in *.
  assert (Hdy : (vy q * dt == GRAVITY * dt * dt)%Q).
  { rewrite Hvy1, Hjump, Hvy. ring. }
  assert (Hpos : (0 < vy q * dt)%Q) by (rewrite Hdy; lra).
  assert (Hrow : leadRow q (vy q * dt) = t).
  { unfold leadRow. rewrite (proj2 (Qlt_bool_iff _ _) Hpos).
    unfold restsOn in Hrest. rewrite Hy1, Hh1, Hy, Hh.
    apply tileOf_unique; unfold TILE in *;
      rewrite ?inject_Z_mult, ?inject_Z_plus in *;
      change (inject_Z 32) with 32%Q in *;
      change (inject_Z 1) with 1%Q; lra. }
  assert (Hsolid : exists tx,
             tileOf (x q) <= tx <= tileOf (x q + w q - 1)%Q
             /\ isSolidTile tx (leadRow q (vy q * dt)) = true)
    by (rewrite Hrow; exact Hfloor).
  destruct (moveY_landing q (vy q * dt) Hpos Hsolid) as (Hrest' & Hvy' & Hog').
  rewrite Hrow in Hrest'.
  destruct (moveY_frame q (vy q * dt)) as (_ & _ & Hh2 & _).
  split; [exact Hog'|]. split; [exact Hvy'|]. split; [|exact Hrest'].
  unfold restsOn in *. rewrite Hh2, Hh1, Hh in Hrest'. lra.
Qed.

Lemma standing_is_stable_witness :
  let p := update STEP noKeys landingBody in
  onGround (physicsStep STEP jumpHeld p) = false
  /\ onGround (physicsStep STEP noKeys p) = true
  /\ (y (physicsStep STEP noKeys p) == y p)%Q.
Proof.
  intros p. split; [vm_compute; reflexivity|].
  assert (Hfloor :
    let q := moveX (beforeMove STEP noKeys p)
                   (vx (beforeMove STEP noKeys p) * STEP) in
    exists tx, tileOf (x q) <= tx <= tileOf (x q + w q - 1)%Q
               /\ isSolidTile tx 18 = true).
  { exists 2. vm_compute. repeat split; discriminate. }
  destruct (standing_is_stable STEP noKeys p 18) as (Hog & _ & Hy & _).
  - reflexivity.
  - vm_compute. discriminate.
  - reflexivity.
  - vm_compute. reflexivity.
  - vm_compute. reflexivity.
  - reflexivity.
  - exact Hfloor.
  - split; [exact Hog|exact Hy].
Defined.

(** ** The level *)

Lemma layout_in_bounds :
  forallb (fun j =>
    forallb (fun i =>
      Bool.eqb (isSolidTile (Z.of_nat i) (Z.of_nat j))
               (levelSolid (Z.of_nat i) (Z.of_nat j)))
      (seq 0 120))
    (seq 0 20) = true.
Proof. vm_compute. reflexivity. Qed.

Lemma isSolidTile_layout (tx ty : Z) : isSolidTile tx ty = levelSolid tx ty.
Proof.
  destruct (Z_lt_dec tx 0) as [Hx0|Hx0];
    [unfold isSolidTile, levelSolid, between;
     destruct (Z.ltb_spec tx 0); [|lia];
     destruct (Z.leb_spec 0 tx); [lia|]; reflexivity|].
  destruct (Z_lt_dec ty 0) as [Hy0|Hy0];
    [unfold isSolidTile, levelSolid, between;
     destruct (Z.ltb_spec ty 0); [|lia];
     destruct (Z.leb_spec 0 ty); [lia|];
     rewrite orb_true_r, andb_false_r; reflexivity|].
  destruct (Z_lt_dec tx LEVEL_W) as [Hx1|Hx1];
    [|unfold isSolidTile, levelSolid, between;
      destruct (Z.geb_spec tx LEVEL_W); [|lia];
      destruct (Z.ltb_spec tx LEVEL_W); [lia|];
      rewrite !orb_true_r, andb_false_r; reflexivity].
  destruct (Z_lt_dec ty LEVEL_H) as [Hy1|Hy1];
    [|unfold isSolidTile, levelSolid, between;
      destruct (Z.geb_spec ty LEVEL_H); [|lia];
      destruct (Z.ltb_spec ty LEVEL_H); [lia|];
      rewrite !orb_true_r, !andb_false_r; reflexivity].
  unfold LEVEL_W, LEVEL_H in *.
  pose proof layout_in_bounds as Hall.
  rewrite forallb_forall in Hall.
  specialize (Hall (Z.to_nat ty)). rewrite in_seq in Hall.
  assert (Hj : (0 <= Z.to_nat ty < 0 + 20)%nat) by lia.
  specialize (Hall Hj). rewrite forallb_forall in Hall.
  specialize (Hall (Z.to_nat tx)). rewrite in_seq in Hall.
  assert (Hi : (0 <= Z.to_nat tx < 0 + 120)%nat) by lia.
  specialize (Hall Hi). rewrite !Z2Nat.id in Hall by lia.
  apply Bool.eqb_prop. exact Hall.
Qed.

(** X4.  The level [makeLevel] builds, cell by cell: a tile is solid
    exactly when it lies outside the 120 x 20 grid, or in row 19, or in row
    18 outside the two gaps (columns 48 to 51 and 70 to 73), or on a
    platform (row 17, columns 10 to 19 and 35 to 44; row 16, columns 22 to
    27), or is one of the two short pillars ((60,17) and (85,17)), or
    belongs to the goal pillar (column 117, rows 9 to 17). *)
Theorem level_layout (tx ty : Z) :
  isSolidTile tx ty = true
  <-> (tx < 0 \/ ty < 0 \/ 120 <= tx \/ 20 <= ty)
      \/ ty = 19
      \/ (ty = 18 /\ ~ (48 <= tx < 52) /\ ~ (70 <= tx < 74))
      \/ (ty = 17 /\ (10 <= tx < 20 \/ 35 <= tx < 45 \/ tx = 60 \/ tx = 85))
      \/ (ty = 16 /\ 22 <= tx < 28)
      \/ (tx = 117 /\ 9 <= ty < 18).
Proof.
  rewrite isSolidTile_layout. unfold levelSolid, between, LEVEL_W, LEVEL_H.
  rewrite !orb_true_iff, !andb_true_iff, !negb_true_iff, !orb_true_iff,
    !andb_false_iff, !orb_false_iff, !andb_false_iff, !andb_true_iff.
  rewrite !Z.eqb_eq, !Z.leb_le, !Z.ltb_lt, !Z.leb_gt, !Z.ltb_ge. lia.
Qed.

(** X5.  The floor is closed.  A downward move of a body at least one
    pixel wide whose bottom edge would arrive in row 19 or below is always
    stopped: the body is grounded with vy 0.  Row 19 has no gap, and below
    it every coordinate counts as solid. *)
Theorem floor_is_closed (o : Body) (dy : Q) :
  (0 < dy)%Q -> (1 <= w o)%Q -> 19 <= leadRow o dy ->
  let o' := rectVsTilesMove o 0 dy in
  onGround o' = true /\ vy o' = 0%Q /\ restsOn (leadRow o dy) o'.
Proof.
  intros Hdy Hw Hrow o'. subst o'. rewrite rectVsTilesMove_dy_only.
  assert (Hsolid : exists tx,
             tileOf (x o) <= tx <= tileOf (x o + w o - 1)%Q
             /\ isSolidTile tx (leadRow o dy) = true).
  { exists (tileOf (x o)). split.
    - split; [lia|]. apply tileOf_le. lra.
    - rewrite isSolidTile_layout. unfold levelSolid, between, LEVEL_H.
      destruct (Z.eqb_spec (leadRow o dy) 19) as [E|E];
        [rewrite !orb_true_r; reflexivity|].
      destruct (Z.ltb_spec (leadRow o dy) 20); [lia|].
      rewrite !andb_false_r. reflexivity. }
  destruct (moveY_landing o dy Hdy Hsolid) as (Hrest & Hvy & Hog).
  split; [exact Hog|]. split; [exact Hvy|exact Hrest].
Qed.

Lemma floor_is_closed_witness :
  let o := mkBody 1550 577.8 26 30 0 30 false 1 false in
  isSolidTile 48 18 = false
  /\ onGround (rectVsTilesMove o 0 0.5) = true.
Proof.
  intros o. split; [reflexivity|].
  apply (floor_is_closed o 0.5).
  - reflexivity.
  - vm_compute. discriminate.
  - vm_compute. discriminate.
Defined.

(** ** Speed *)

Lemma horizontalStep_bound (dt ax : Q) (p : Body) :
  (- (MAX_SPEED_X * FRICTION) <= vx (horizontalStep dt ax p))%Q
  /\ (vx (horizontalStep dt ax p) <= MAX_SPEED_X * FRICTION)%Q.
Proof.
  unfold horizontalStep. cbn [vx set_vx].
  set (v := (vx p + ax * dt)%Q).
  pose proof (Q.le_max_r (Qmin v MAX_SPEED_X) (- MAX_SPEED_X)) as Hlo.
  assert (Hhi : (Qmax (Qmin v MAX_SPEED_X) (- MAX_SPEED_X) <= MAX_SPEED_X)%Q).
  { apply Q.max_lub; [apply Q.le_min_r|]. unfold MAX_SPEED_X. discriminate. }
  set (c := Qmax (Qmin v MAX_SPEED_X) (- MAX_SPEED_X)) in *.
  unfold MAX_SPEED_X, FRICTION in *. split; lra.
Qed.

Lemma beforeMove_vx_bound (dt : Q) (keys : Keys) (p : Body) :
  (- (MAX_SPEED_X * FRICTION) <= vx (beforeMove dt keys p))%Q
  /\ (vx (beforeMove dt keys p) <= MAX_SPEED_X * FRICTION)%Q.
Proof.
  unfold beforeMove. destruct (inputStep keys p) as [ax p1].
  pose proof (horizontalStep_bound dt ax p1) as Hb.
  unfold jumpStep, gravityStep.
  destruct (Space keys || KeyZ keys);
    [destruct (onGroundLast _)|]; cbn [vx set_vy set_onGround]; exact Hb.
Qed.

Lemma moveX_vx (o : Body) (dx : Q) :
  vx (moveX o dx) = 0%Q \/ vx (moveX o dx) = vx o.
Proof.
  unfold moveX. destruct (Qeq_bool dx 0); [right; reflexivity|].
  destruct (scanRange _ _ _); [left|right]; reflexivity.
Qed.

(** X6.  Whatever the body, the keys and the step, a tick ends with a
    horizontal speed of at most MAX_SPEED_X * FRICTION = 187 in either
    direction. *)
Theorem speed_is_bounded (dt : Q) (keys : Keys) (p : Body) :
  (- (MAX_SPEED_X * FRICTION) <= vx (update dt keys p))%Q
  /\ (vx (update dt keys p) <= MAX_SPEED_X * FRICTION)%Q.
Proof.
  unfold update, trackStep, winStep. fold (physicsStep dt keys p).
  destruct (reachedGoal (physicsStep dt keys p));
    [cbn; unfold MAX_SPEED_X, FRICTION; split; discriminate|].
  cbn [vx set_onGroundLast]. unfold physicsStep, moveStep.
  rewrite rectVsTilesMove_dy_only, rectVsTilesMove_dx_only.
  pose proof (beforeMove_vx_bound dt keys p) as Hb.
  set (b := beforeMove dt keys p) in *.
  set (q := moveX b (vx b * dt)).
  destruct (moveY_frame q (vy q * dt)) as (_ & _ & _ & Hvx & _).
  rewrite Hvx. subst q.
  destruct (moveX_vx b (vx b * dt)) as [E|E]; rewrite E;
    [unfold MAX_SPEED_X, FRICTION; split; discriminate|exact Hb].
Qed.

(** X7.  No horizontal tunnelling at game speed.  When the step is short
    enough that the top speed covers less than a tile
    (MAX_SPEED_X * FRICTION * dt < 32, as the fixed step 1/60 is), the
    column the horizontal pass probes is the column of the leading edge
    before the move or the one next to it in the direction of travel. *)
Theorem probe_is_adjacent (dt : Q) (keys : Keys) (p : Body) :
  (0 <= dt)%Q -> (MAX_SPEED_X * FRICTION * dt < 32)%Q ->
  let b := beforeMove dt keys p in
  let dx := (vx b * dt)%Q in
  ((0 < dx)%Q ->
   tileOf (x b + w b) <= leadColumn b dx <= tileOf (x b + w b) + 1)
  /\ ((dx < 0)%Q ->
      tileOf (x b) - 1 <= leadColumn b dx <= tileOf (x b)).
Proof.
  intros Hdt Hfast b dx.
  destruct (beforeMove_vx_bound dt keys p) as [Hlo Hhi]. fold b in Hlo, Hhi.
  assert (Hup : (dx <= MAX_SPEED_X * FRICTION * dt)%Q)
    by (subst dx; apply Qmult_le_compat_r; assumption).
  assert (Hdown : (- (MAX_SPEED_X * FRICTION * dt) <= dx)%Q).
  { subst dx.
    assert (E : (- (MAX_SPEED_X * FRICTION * dt)
                 == - (MAX_SPEED_X * FRICTION) * dt)%Q) by ring.
    rewrite E. apply Qmult_le_compat_r; assumption. }
  clearbody dx. unfold leadColumn, TILE. split.
  - intros Hpos. rewrite (proj2 (Qlt_bool_iff _ _) Hpos).
    apply tileOf_next; unfold TILE; change (inject_Z 32) with 32%Q; lra.
  - intros Hneg. rewrite (proj2 (Qlt_bool_false _ _) (Qlt_le_weak _ _ Hneg)).
    assert (Hn : tileOf (x b + dx) <= tileOf (x b) <= tileOf (x b + dx) + 1)
      by (apply tileOf_next; unfold TILE; change (inject_Z 32) with 32%Q; lra).
    lia.
Qed.

Lemma probe_is_adjacent_witness :
  let b := beforeMove STEP (mkKeys false true false false) ledgeBody in
  tileOf (x b + w b) <= leadColumn b (vx b * STEP)
                     <= tileOf (x b + w b) + 1.
Proof.
  intros b.
  apply (probe_is_adjacent STEP (mkKeys false true false false) ledgeBody).
  - vm_compute. discriminate.
  - vm_compute. reflexivity.
  - vm_compute. reflexivity.
Defined.

(** ** What a tick and a reset keep *)

Lemma inputStep_facing (keys : Keys) (p : Body) :
  facing (snd (inputStep keys p))
  = if ArrowRight keys then 1
    else if ArrowLeft keys then -1 else facing p.
Proof.
  unfold inputStep. destruct (ArrowLeft keys), (ArrowRight keys); reflexivity.
Qed.

(** X8.  A tick never changes the size of the body, and it leaves the
    facing at 1 or -1 when it was: the facing after the tick is 1 after a
    goal reset or with ArrowRight down, -1 with only ArrowLeft down, and
    the old facing otherwise. *)
Theorem update_keeps_shape (dt : Q) (keys : Keys) (p : Body) :
  w (update dt keys p) = w p /\ h (update dt keys p) = h p
  /\ facing (update dt keys p)
     = (if reachedGoal (physicsStep dt keys p) then 1
        else if ArrowRight keys then 1
        else if ArrowLeft keys then -1 else facing p)
  /\ (facing p = 1 \/ facing p = -1 ->
      facing (update dt keys p) = 1 \/ facing (update dt keys p) = -1).
Proof.
  destruct (physicsStep_size dt keys p) as [Hw Hh].
  assert (Hf : facing (physicsStep dt keys p)
               = if ArrowRight keys then 1
                 else if ArrowLeft keys then -1 else facing p).
  { unfold physicsStep, moveStep.
    rewrite rectVsTilesMove_dy_only, rectVsTilesMove_dx_only.
    set (b := beforeMove dt keys p).
    set (q := moveX b (vx b * dt)).
    destruct (moveY_frame q (vy q * dt)) as (_ & _ & _ & _ & Hf2 & _).
    destruct (moveX_frame b (vx b * dt)) as (_ & _ & _ & _ & _ & Hf1 & _).
    fold q in Hf1. rewrite Hf2, Hf1. subst b.
    unfold beforeMove, inputStep, jumpStep, gravityStep.
    destruct (ArrowLeft keys), (ArrowRight keys), (Space keys), (KeyZ keys),
      (onGroundLast p) eqn:E; cbn; rewrite ?E; reflexivity. }
  assert (Hall : w (update dt keys p) = w p /\ h (update dt keys p) = h p
                 /\ facing (update dt keys p)
                    = (if reachedGoal (physicsStep dt keys p) then 1
                       else if ArrowRight keys then 1
                       else if ArrowLeft keys then -1 else facing p)).
  { unfold update, trackStep, winStep. fold (physicsStep dt keys p).
    destruct (reachedGoal (physicsStep dt keys p)); cbn; auto. }
  destruct Hall as (Hw' & Hh' & Hf').
  split; [exact Hw'|]. split; [exact Hh'|]. split; [exact Hf'|].
  intros Hface. rewrite Hf'.
  destruct (reachedGoal _), (ArrowRight keys), (ArrowLeft keys); auto.
Qed.

Lemma update_keeps_shape_witness :
  facing (update STEP (mkKeys true false false false) player0) = -1
  \/ facing (update STEP (mkKeys true false false false) player0) = 1.
Proof.
  destruct (update_keeps_shape STEP (mkKeys true false false false) player0)
    as (_ & _ & _ & Hface).
  destruct (Hface (or_introl eq_refl)) as [H|H]; [right|left]; exact H.
Defined.

(** X9.  [reset] is idempotent, and what it leaves depends only on the
    size of the body and on onGroundLast, which it does not write. *)
Theorem reset_idempotent (p q : Body) :
  reset (reset p) = reset p
  /\ onGroundLast (reset p) = onGroundLast p
  /\ (w p = w q -> h p = h q -> onGroundLast p = onGroundLast q ->
      reset p = reset q).
Proof.
  split; [reflexivity|]. split; [reflexivity|].
  intros Hw Hh Hl. destruct p, q. cbn in *. subst. reflexivity.
Qed.

Lemma reset_idempotent_witness :
  reset standingAtGoal = reset (set_onGroundLast (set_x landingBody 7) true).
Proof.
  destruct (reset_idempotent standingAtGoal
              (set_onGroundLast (set_x landingBody 7) true))
    as (_ & _ & Hsame).
  exact (Hsame eq_refl eq_refl eq_refl).
Defined.

(** X10.  The goal reset at the end of a tick clears onGroundLast with
    onGround, so the tick after a win applies no jump impulse whatever
    the keys.  [reset] alone, as the R key calls it, leaves onGroundLast
    as it was: after a reset of a body that ended its last tick grounded,
    a tick with a jump key down applies the impulse although the body is
    in the air at the spawn point. *)
Theorem jump_after_reset (dt dt' : Q) (keys keys' : Keys) (p : Body) :
  (reachedGoal (physicsStep dt keys p) = true ->
   vy (beforeMove dt' keys' (update dt keys p)) = (0 + GRAVITY * dt')%Q)
  /\ (onGroundLast p = true -> jumpKey keys' = true ->
      onGround (reset p) = false
      /\ vy (beforeMove dt' keys' (reset p)) = JUMP_VY).
Proof.
  split.
  - intros Hgoal. rewrite beforeMove_vy.
    unfold update, winStep. fold (physicsStep dt keys p). rewrite Hgoal.
    cbn. rewrite andb_false_r. reflexivity.
  - intros Hlast Hkey. split; [reflexivity|].
    rewrite beforeMove_vy. cbn [onGroundLast reset set_x set_y set_vx set_vy
                                set_onGround set_facing].
    rewrite Hkey, Hlast. reflexivity.
Qed.

Lemma jump_after_reset_witness :
  vy (beforeMove STEP jumpHeld (update STEP noKeys fallingAtGoal))
  = (0 + GRAVITY * STEP)%Q
  /\ vy (beforeMove STEP jumpHeld (reset standingAtGoal)) = JUMP_VY.
Proof.
  split.
  - apply (jump_after_reset STEP STEP noKeys jumpHeld fallingAtGoal).
    vm_compute. reflexivity.
  - apply (jump_after_reset STEP STEP noKeys jumpHeld standingAtGoal);
      reflexivity.
Defined.

(** ** [applyAction] *)

Local Open Scope string_scope.

(** X11.  After [applyAction] the key table holds exactly what the action
    says, whatever it held before: ArrowLeft is down exactly for left and
    left_jump, ArrowRight exactly for right and right_jump, never both;
    Space is down exactly when the action is a jump token and the body is
    on the ground at that moment; KeyZ is not touched.  Any other string,
    idle included, leaves the three keys up. *)
Theorem applyAction_keys (action : string) (p : Body) (keys : Keys) :
  let keys' := applyAction action p keys in
  (ArrowLeft keys' = true <-> action = "left" \/ action = "left_jump")
  /\ (ArrowRight keys' = true <-> action = "right" \/ action = "right_jump")
  /\ (Space keys' = true <-> onGround p = true /\ jumpToken action)
  /\ KeyZ keys' = KeyZ keys
  /\ ArrowLeft keys' && ArrowRight keys' = false.
Proof.
  unfold applyAction, jumpToken.
  destruct (String.eqb_spec action "left") as [->|N1].
  { cbn. repeat split; try tauto; try discriminate;
      intros H; decompose [and or] H; discriminate. }
  destruct (String.eqb_spec action "right") as [->|N2].
  { cbn. repeat split; try tauto; try discriminate;
      intros H; decompose [and or] H; discriminate. }
  destruct (String.eqb_spec action "jump") as [->|N3].
  { destruct (onGround p); cbn; repeat split; try tauto; try discriminate;
      intros H; decompose [and or] H; discriminate. }
  destruct (String.eqb_spec action "left_jump") as [->|N4].
  { destruct (onGround p); cbn; repeat split; try tauto; try discriminate;
      intros H; decompose [and or] H; discriminate. }
  destruct (String.eqb_spec action "right_jump") as [->|N5].
  { destruct (onGround p); cbn; repeat split; try tauto; try discriminate;
      intros H; decompose [and or] H; discriminate. }
  cbn. repeat split; try discriminate;
    intros H; decompose [and or] H; contradiction.
Qed.

Lemma applyAction_Space (action : string) (p : Body) (keys : Keys) :
  Space (applyAction action p keys)
  = onGround p
    && (String.eqb action "jump" || String.eqb action "left_jump"
        || String.eqb action "right_jump").
Proof.
  unfold applyAction.
  destruct (String.eqb_spec action "left") as [->|N1];
    [cbn; rewrite andb_false_r; reflexivity|].
  destruct (String.eqb_spec action "right") as [->|N2];
    [cbn; rewrite andb_false_r; reflexivity|].
  destruct (String.eqb_spec action "jump") as [->|N3];
    [destruct (onGround p); reflexivity|].
  destruct (String.eqb_spec action "left_jump") as [->|N4];
    [destruct (onGround p); reflexivity|].
  destruct (String.eqb_spec action "right_jump") as [->|N5];
    [destruct (onGround p); reflexivity|].
  cbn. rewrite andb_false_r. reflexivity.
Qed.

(** X12.  Both ground checks must pass for an agent's jump.  With KeyZ
    up, an action applied while the body is in the air gives no impulse in
    any later tick, even one whose onGroundLast is true; a jump token
    applied on the ground gives the impulse in a later tick exactly when
    that tick's onGroundLast is true. *)
Theorem agent_jump_needs_ground (action : string) (keys : Keys)
                                (p p' : Body) (dt : Q) :
  KeyZ keys = false ->
  let keys' := applyAction action p keys in
  (onGround p = false ->
   vy (beforeMove dt keys' p') = (vy p' + GRAVITY * dt)%Q)
  /\ (onGround p = true -> jumpToken action ->
      vy (beforeMove dt keys' p')
      = if onGroundLast p' then JUMP_VY else (vy p' + GRAVITY * dt)%Q).
Proof.
  intros Hz keys'. subst keys'.
  assert (Hk : KeyZ (applyAction action p keys) = false).
  { unfold applyAction.
    repeat match goal with
           | |- context [String.eqb ?a ?b] => destruct (String.eqb a b)
           | |- context [onGround p] => destruct (onGround p)
           end; exact Hz. }
  split.
  - intros Hair. rewrite beforeMove_vy. unfold jumpKey.
    rewrite applyAction_Space, Hair, Hk. reflexivity.
  - intros Hground Htoken. rewrite beforeMove_vy. unfold jumpKey.
    rewrite applyAction_Space, Hground, Hk.
    destruct Htoken as [->|[->| ->]]; reflexivity.
Qed.

Lemma agent_jump_needs_ground_witness :
  vy (beforeMove STEP (applyAction "right_jump" player0 noKeys)
                 standingAtGoal)
  = (vy standingAtGoal + GRAVITY * STEP)%Q
  /\ vy (beforeMove STEP (applyAction "right_jump" standingAtGoal noKeys)
                    standingAtGoal)
     = JUMP_VY.
Proof.
  split.
  - apply (agent_jump_needs_ground "right_jump" noKeys player0
             standingAtGoal STEP); reflexivity.
  - apply (agent_jump_needs_ground "right_jump" noKeys standingAtGoal
             standingAtGoal STEP); [reflexivity|reflexivity|].
    right. right. reflexivity.
Defined.

(** ** The camera *)

(** X13.  On a canvas no larger than the level, the camera follow step
    keeps the view inside the level: 0 <= CAMERA.x <= level width -
    CAMERA.w and likewise for y, and it does not change the view size.
    On each axis the view is centred on the body (the floor of the body's
    centre minus half the view) where that lies within these bounds, and
    sits at the border it would cross otherwise. *)
Theorem camera_stays_in_level (cam : Camera) (p : Body) :
  0 <= cam_w cam <= LEVEL_W * TILE ->
  0 <= cam_h cam <= LEVEL_H * TILE ->
  let cam' := cameraFollow cam p in
  let cx := Qfloor (x p + w p / 2 - inject_Z (cam_w cam) / 2)%Q in
  let cy := Qfloor (y p + h p / 2 - inject_Z (cam_h cam) / 2)%Q in
  0 <= cam_x cam' <= LEVEL_W * TILE - cam_w cam
  /\ 0 <= cam_y cam' <= LEVEL_H * TILE - cam_h cam
  /\ cam_w cam' = cam_w cam /\ cam_h cam' = cam_h cam
  /\ (0 <= cx <= LEVEL_W * TILE - cam_w cam -> cam_x cam' = cx)
  /\ (0 <= cy <= LEVEL_H * TILE - cam_h cam -> cam_y cam' = cy)
  /\ (cx < 0 -> cam_x cam' = 0)
  /\ (LEVEL_W * TILE - cam_w cam < cx ->
      cam_x cam' = LEVEL_W * TILE - cam_w cam)
  /\ (cy < 0 -> cam_y cam' = 0)
  /\ (LEVEL_H * TILE - cam_h cam < cy ->
      cam_y cam' = LEVEL_H * TILE - cam_h cam).
Proof.
  intros Hw Hh cam' cx cy. subst cam' cx cy. unfold cameraFollow.
  cbn [cam_x cam_y cam_w cam_h]. repeat split; lia.
Qed.

Lemma camera_stays_in_level_witness :
  let cam' := cameraFollow (mkCamera 0 0 800 480) fallingAtGoal in
  0 <= cam_x cam' <= 3040 /\ cam_y cam' = 160.
Proof.
  intros cam'.
  destruct (camera_stays_in_level (mkCamera 0 0 800 480) fallingAtGoal)
    as (Hx & _ & _ & _ & _ & _ & _ & _ & _ & Hcy);
    [cbn; unfold LEVEL_W, TILE; lia|cbn; unfold LEVEL_H, TILE; lia|].
  split; [exact Hx|].
  apply (eq_trans (Hcy ltac:(vm_compute; reflexivity))). reflexivity.
Defined.

(** * Further properties of the snapshot and the server *)

Lemma fillGrid_shape (solid : Z -> Z -> bool) (tx0 ty0 : Z) :
  length (fillGrid solid tx0 ty0 5 9) = 5%nat
  /\ Forall (fun row => length row = 9%nat
                        /\ Forall (fun v => v = 0 \/ v = 1) row)
            (fillGrid solid tx0 ty0 5 9).
Proof.
  split; [reflexivity|].
  repeat (constructor;
          [split; [reflexivity|];
           repeat (constructor;
                   [match goal with
                    | |- context [if ?b then _ else _] => destruct b
                    end; auto|]);
           constructor|]).
  constructor.
Qed.

(** X14.  The snapshot's nearGrid always has exactly 5 rows of exactly 9
    cells, every cell 0 or 1, and its goal is GOAL_X = 3744. *)
Theorem snapshot_shape (p : Body) :
  length (nearGrid (snapshotState p)) = 5%nat
  /\ Forall (fun row => length row = 9%nat
                        /\ Forall (fun v => v = 0 \/ v = 1) row)
            (nearGrid (snapshotState p))
  /\ goal_x (snapshotState p) = 3744.
Proof.
  destruct (fillGrid_shape isSolidTile (txFeet p) (tyFeet p)) as [Hl Hr].
  split; [exact Hl|]. split; [exact Hr|reflexivity].
Qed.

(** The wire form of a grid, cell by cell. *)
Lemma wire_cell (grid : list (list Z)) (r c : nat) (v : Z) :
  cellAt grid r c = Some v ->
  element (element
             (Arr (map (fun row => Arr (map (fun v => Num (inject_Z v)) row))
                       grid)) r) c
  = Num (inject_Z v).
Proof.
  unfold cellAt. intros Hcell.
  destruct (grid !! r) as [row|] eqn:Hrow; [|discriminate].
  cbn [element].
  change (map (fun row => Arr (map (fun v => Num (inject_Z v)) row)) grid)
    with ((fun row => Arr (map (fun v => Num (inject_Z v)) row)) <$> grid).
  rewrite list_lookup_fmap, Hrow. cbn.
  change (map (fun v => Num (inject_Z v)) row)
    with ((fun v => Num (inject_Z v)) <$> row).
  rewrite list_lookup_fmap, Hcell. reflexivity.
Qed.

Lemma wire_validates (view : PlayerView) (solid : Z -> Z -> bool)
                     (tx0 ty0 goal : Z) :
  let s := mkSnapshot view (fillGrid solid tx0 ty0 5 9) goal in
  validateState (wireState s) = Return (wireState s).
Proof. reflexivity. Qed.

(** X15.  Every snapshot the client builds passes the server's
    validation unchanged, whatever the body. *)
Theorem snapshot_is_valid (p : Body) :
  validateState (wireState (snapshotState p))
  = Return (wireState (snapshotState p)).
Proof.
  apply (wire_validates
           (mkPlayerView (Math_round (x p)) (Math_round (y p))
                         (Math_round (vx p)) (Math_round (vy p))
                         (onGround p))
           isSolidTile (txFeet p) (tyFeet p) GOAL_X).
Qed.

Lemma strictEqNum_flag (b : bool) :
  strictEqNum (Num (inject_Z (if b then 1 else 0))) 1 = b
  /\ strictEqNum (Num (inject_Z (if b then 1 else 0))) 0 = negb b.
Proof. destruct b; split; reflexivity. Qed.

Lemma heuristic_snapshot_eq (p : Body) :
  heuristic (wireState (snapshotState p))
  = Return (if onGround p
               && (isSolidTile (txFeet p + 1) (tyFeet p)
                   || isSolidTile (txFeet p + 2) (tyFeet p)
                   || negb (isSolidTile (txFeet p) (tyFeet p)))
            then "right_jump" else "right").
Proof.
  rewrite heuristic_eq. cbv zeta.
  set (grid := nearGrid (snapshotState p)).
  assert (Hng : field (wireState (snapshotState p)) "nearGrid"
                = Arr (map (fun row =>
                              Arr (map (fun v => Num (inject_Z v)) row))
                           grid)) by reflexivity.
  assert (Hog : stateOnGround (wireState (snapshotState p))
                = Bool (onGround p)) by reflexivity.
  rewrite Hng, Hog. cbn [truthy].
  assert (Hcell : forall c, (c < 9)%nat ->
            cellAt grid 0 c
            = Some (if isSolidTile (txFeet p + Z.of_nat c) (tyFeet p - 0)
                    then 1 else 0)).
  { intros c Hc. subst grid. unfold snapshotState. cbn [nearGrid].
    apply (fillGrid_cell isSolidTile (txFeet p) (tyFeet p) 0 c); lia. }
  rewrite (wire_cell grid 0 1 _ (Hcell 1%nat ltac:(lia))).
  rewrite (wire_cell grid 0 2 _ (Hcell 2%nat ltac:(lia))).
  rewrite (wire_cell grid 0 0 _ (Hcell 0%nat ltac:(lia))).
  rewrite Z.sub_0_r.
  change (Z.of_nat 1) with 1. change (Z.of_nat 2) with 2.
  change (Z.of_nat 0) with 0. rewrite Z.add_0_r.
  rewrite (proj1 (strictEqNum_flag _)), (proj1 (strictEqNum_flag _)),
    (proj2 (strictEqNum_flag _)).
  reflexivity.
Qed.

(** X16.  Client and server together: on the snapshot of a body the
    heuristic answers right_jump exactly when the body is on the ground and
    the tile one or two columns to the right of the foot tile is solid or
    the foot tile itself is empty, and right otherwise.  So a body in the
    air always gets right, and a body on the ground whose foot tile is
    empty always gets right_jump. *)
Theorem heuristic_on_snapshot (p : Body) :
  heuristic (wireState (snapshotState p))
  = Return (if onGround p
               && (isSolidTile (txFeet p + 1) (tyFeet p)
                   || isSolidTile (txFeet p + 2) (tyFeet p)
                   || negb (isSolidTile (txFeet p) (tyFeet p)))
            then "right_jump" else "right")
  /\ (onGround p = false ->
      heuristic (wireState (snapshotState p)) = Return "right")
  /\ (onGround p = true -> isSolidTile (txFeet p) (tyFeet p) = false ->
      heuristic (wireState (snapshotState p)) = Return "right_jump").
Proof.
  split; [apply heuristic_snapshot_eq|]. split.
  - intros Hair. rewrite heuristic_snapshot_eq, Hair. reflexivity.
  - intros Hground Hfoot.
    rewrite heuristic_snapshot_eq, Hground, Hfoot, !orb_true_r. reflexivity.
Qed.

Lemma heuristic_on_snapshot_witness :
  heuristic (wireState (snapshotState player0)) = Return "right"
  /\ heuristic (wireState (snapshotState (update STEP noKeys landingBody)))
     = Return "right_jump".
Proof.
  split.
  - apply (heuristic_on_snapshot player0). reflexivity.
  - apply (heuristic_on_snapshot (update STEP noKeys landingBody)).
    + vm_compute. reflexivity.
    + vm_compute. reflexivity.
Defined.

(** X17.  The heuristic never throws, whatever it is given (undefined,
    null, a number, a state without player or grid): it answers right or
    right_jump, and right whenever player.onGround is not truthy. *)
Theorem heuristic_never_throws (state : Value) :
  (heuristic state = Return "right" \/ heuristic state = Return "right_jump")
  /\ (truthy (stateOnGround state) = false ->
      heuristic state = Return "right").
Proof.
  rewrite heuristic_eq. cbv zeta. split.
  - destruct (truthy (stateOnGround state) && _); auto.
  - intros ->. reflexivity.
Qed.

(** ** The endpoint *)

Lemma checkRows_message (n : nat) : forall (grid : Value) (r : nat) msg,
  checkRows grid r n = Throw msg -> msg <> EmptyString.
Proof.
  induction n as [|n IH]; intros grid r msg H; [discriminate|].
  cbn [checkRows] in H. unfold index in H.
  destruct (nullish grid); cbn [bind] in H;
    [injection H as <-; discriminate|].
  destruct (negb (isArray (element grid r)) || _);
    [injection H as <-; discriminate|].
  exact (IH _ _ _ H).
Qed.

(** Every error [validateState] throws carries a message. *)
Lemma validateState_message (state : Value) (msg : string) :
  validateState state = Throw msg -> msg <> EmptyString.
Proof.
  unfold validateState.
  destruct (negb (truthy state) || negb (typeof_object state)) eqn:Hs;
    [intros H; injection H as <-; discriminate|].
  apply orb_false_iff in Hs. destruct Hs as [Ht _].
  apply negb_false_iff in Ht.
  rewrite !(member_defined state) by (apply truthy_not_nullish; exact Ht).
  cbn [bind].
  set (player := field state "player").
  assert (Hp : nullish (if truthy player then player else Obj []) = false).
  { destruct (truthy player) eqn:E; [|reflexivity].
    apply truthy_not_nullish. exact E. }
  rewrite (member_defined _ "onGround" Hp). cbn [bind].
  destruct (negb (isBoolean _));
    [intros H; injection H as <-; discriminate|].
  destruct (field state "nearGrid") as [| |b|q|str|rows|fs];
    try (intros H; injection H as <-; discriminate).
  destruct (length rows <? 5)%nat;
    [intros H; injection H as <-; discriminate|].
  destruct (checkRows (Arr rows) 0 5) as [u|m] eqn:Hrows; cbn [bind];
    [discriminate|].
  intros H. injection H as <-. exact (checkRows_message _ _ _ _ Hrows).
Qed.

Lemma decideAction_returns (rt : Runtime) (openai : bool)
                           (remote : Remote) (state : Value) :
  exists a, decideAction rt openai remote state = Return a /\ In a ACTIONS.
Proof.
  destruct (heuristic_in_ACTIONS state) as (f & Hf & Hin).
  unfold decideAction, askRemote. destruct openai; cbn [negb];
    [|rewrite Hf; eauto].
  destruct (remoteAction rt remote) as [a|msg]; cbn [bind tryCatch];
    [|rewrite Hf; eauto].
  destruct (ACTIONS_has a) eqn:Ha;
    [exists a; split; [reflexivity|apply ACTIONS_has_In; exact Ha]|].
  rewrite Hf. cbn [tryCatch]. eauto.
Qed.

(** X18.  The endpoint answers 200 with one of the six actions exactly
    when the state of the request body passes validation, however the
    remote call settles; otherwise (no body, no state, a refused state) it
    answers 400 with the message of the validation error, which is never
    empty.  It never answers with an action outside the six. *)
Theorem agentAct_answers (rt : Runtime) (openai : bool)
                         (remote : Remote) (body : Value) :
  let state := requestState body in
  (~ Refused state ->
   exists a, agentAct rt openai remote body = Json200 a /\ In a ACTIONS)
  /\ (Refused state ->
      exists msg, validateState state = Throw msg
                  /\ msg <> EmptyString
                  /\ agentAct rt openai remote body = Json400 msg)
  /\ (forall a, agentAct rt openai remote body = Json200 a ->
                In a ACTIONS).
Proof.
  intros state. unfold agentAct. fold (requestState body). fold state.
  destruct (validateState_cases state) as [[Hret Hok]|[[msg Hthrow] Hbad]].
  - rewrite Hret. cbn [bind].
    destruct (decideAction_returns rt openai remote state) as (a & Ha & Hin).
    rewrite Ha. cbn [bind].
    split; [intros _; eauto|]. split; [intros Hbad; contradiction|].
    intros a' E. injection E as <-. exact Hin.
  - rewrite Hthrow. cbn [bind].
    pose proof (validateState_message state msg Hthrow) as Hmsg.
    destruct (String.eqb_spec msg EmptyString) as [E|_]; [contradiction|].
    split; [intros Hok; contradiction|].
    split; [intros _; eauto|]. intros a E. discriminate.
Qed.

Lemma agentAct_answers_witness :
  let rt := mkRuntime (fun _ => Throw "SyntaxError")
                      (fun _ => Throw "TypeError")
                      (fun s => s) (fun s => s) (fun s => s) (fun s => s) in
  agentAct rt false (Rejected "offline") Undefined = Json400 "Missing state"
  /\ agentAct rt true (Rejected "network")
              (Obj [("state", wireState (snapshotState player0))])
     = Json200 "right".
Proof.
  intros rt. split.
  - destruct (agentAct_answers rt false (Rejected "offline") Undefined)
      as (_ & Hbad & _).
    destruct Hbad as (msg & Hthrow & _ & Hans); [left; reflexivity|].
    rewrite Hans. cbn in Hthrow. injection Hthrow as <-. reflexivity.
  - vm_compute. reflexivity.
Defined.

(** ** Friction *)

Lemma clamp_shrinks (v : Q) :
  (Qabs (Qmax (Qmin v MAX_SPEED_X) (- MAX_SPEED_X)) <= Qabs v)%Q.
Proof.
  unfold MAX_SPEED_X. apply Qabs_Qle_condition.
  pose proof (Qle_Qabs v) as Hpos.
  pose proof (Qle_Qabs (- v)) as Hneg. rewrite Qabs_opp in Hneg.
  set (a := Qabs v) in *.
  destruct (Q.min_spec v 220) as [[H1 E1]|[H1 E1]];
    destruct (Q.max_spec (Qmin v 220) (- (220))) as [[H2 E2]|[H2 E2]];
    rewrite E2; rewrite ?E1; rewrite ?E1 in H2; split; lra.
Qed.

Lemma beforeMove_vx (dt : Q) (keys : Keys) (p : Body) :
  vx (beforeMove dt keys p)
  = (Qmax (Qmin (vx p + fst (inputStep keys p) * dt) MAX_SPEED_X)
          (- MAX_SPEED_X) * FRICTION)%Q.
Proof.
  unfold beforeMove, inputStep, jumpStep, gravityStep, horizontalStep.
  destruct (ArrowLeft keys), (ArrowRight keys), (Space keys), (KeyZ keys),
    (onGroundLast p) eqn:E; cbn; rewrite ?E; reflexivity.
Qed.

(** X19.  With no net horizontal input (both arrow keys up, or both
    down) a tick shrinks the horizontal speed by the factor FRICTION at
    least: |vx'| <= 0.85 |vx|, whatever the step and the rest of the
    state. *)
Theorem friction_slows (dt : Q) (keys : Keys) (p : Body) :
  ArrowLeft keys = ArrowRight keys ->
  (Qabs (vx (update dt keys p)) <= FRICTION * Qabs (vx p))%Q.
Proof.
  intros Hkeys.
  assert (Hzero : (0 <= FRICTION * Qabs (vx p))%Q).
  { apply Qmult_le_0_compat; [unfold FRICTION; discriminate|].
    apply Qabs_nonneg. }
  unfold update, trackStep, winStep. fold (physicsStep dt keys p).
  destruct (reachedGoal (physicsStep dt keys p)); [cbn; exact Hzero|].
  cbn [vx set_onGroundLast]. unfold physicsStep, moveStep.
  rewrite rectVsTilesMove_dy_only, rectVsTilesMove_dx_only.
  pose proof (beforeMove_vx dt keys p) as Hb.
  set (b := beforeMove dt keys p) in *.
  set (q := moveX b (vx b * dt)).
  destruct (moveY_frame q (vy q * dt)) as (_ & _ & _ & Hvx & _).
  rewrite Hvx. subst q.
  destruct (moveX_vx b (vx b * dt)) as [E|E]; rewrite E; [exact Hzero|].
  rewrite Hb.
  assert (Hax : (vx p + fst (inputStep keys p) * dt == vx p)%Q).
  { unfold inputStep. rewrite Hkeys.
    destruct (ArrowRight keys); cbn [fst]; unfold MOVE_ACCEL; ring. }
  rewrite Hax, Qabs_Qmult.
  assert (Hf : (Qabs FRICTION == FRICTION)%Q) by reflexivity.
  rewrite Hf, (Qmult_comm _ FRICTION).
  apply Qmult_le_l; [reflexivity|apply clamp_shrinks].
Qed.

Lemma friction_slows_witness :
  (Qabs (vx (update STEP noKeys ledgeBody)) <= 153)%Q.
Proof.
  apply (Qle_trans _ _ _ (friction_slows STEP noKeys ledgeBody eq_refl)).
  vm_compute. discriminate.
Defined.

(** ** Winning and walls *)

(** X20.  Standing on the ground never wins.  A body of height at most
    31.99 at rest on tile row 18 or lower (the ground of the level is row
    18) has y >= 544, so the goal check fails for it however far right it
    is: the reset needs the body higher up, in the air or on a
    platform. *)
Theorem standing_never_wins (t : Z) (p : Body) :
  restsOn t p -> 18 <= t -> (h p <= 31.99)%Q ->
  reachedGoal p = false.
Proof.
  unfold restsOn. intros Hrest Ht Hh. unfold reachedGoal.
  apply andb_false_iff. right. apply Qlt_bool_false.
  rewrite Zle_Qle in Ht. unfold LEVEL_H, TILE in *.
  rewrite inject_Z_mult in Hrest.
  change (inject_Z ((20 - 3) * 32)) with 544%Q.
  change (inject_Z 32) with 32%Q in Hrest.
  change (inject_Z 18) with 18%Q in Ht. lra.
Qed.

Lemma standing_never_wins_witness : reachedGoal standingAtGoal = false.
Proof.
  apply (standing_never_wins 18 standingAtGoal).
  - vm_compute. reflexivity.
  - lia.
  - vm_compute. discriminate.
Defined.

(** X21.  A wall holds.  After a move to the right was stopped at column
    [col], any further move to the right by less than a tile leaves the
    right edge of the body still left of that column, whether the second
    move is stopped again or not. *)
Theorem wall_holds (o : Body) (dx dx' : Q) :
  (0 < dx)%Q ->
  (exists ty, tileOf (y o) <= ty <= tileOf (y o + h o - 1)%Q
              /\ isSolidTile (leadColumn o dx) ty = true) ->
  (0 < dx')%Q -> (dx' < 32)%Q ->
  let col := leadColumn o dx in
  let o' := rectVsTilesMove o dx 0 in
  let o'' := rectVsTilesMove o' dx' 0 in
  (x o'' + w o'' < inject_Z (col * TILE))%Q.
Proof.
  intros Hdx Hsolid Hdx' Hnear col o' o''. subst o' o''.
  rewrite !rectVsTilesMove_dx_only.
  assert (E0 : Qeq_bool dx 0 = false).
  { apply Qeq_bool_false. intros E. rewrite E in Hdx.
    exact (Qlt_irrefl 0 Hdx). }
  assert (E0' : Qeq_bool dx' 0 = false).
  { apply Qeq_bool_false. intros E. rewrite E in Hdx'.
    exact (Qlt_irrefl 0 Hdx'). }
  pose proof (moveX_hit o dx E0
                (proj2 (scanRange_true_iff _ _ _) Hsolid)) as Hfirst.
  rewrite (proj2 (Qlt_bool_iff _ _) Hdx) in Hfirst. fold col in Hfirst.
  set (o' := moveX o dx) in *.
  assert (Hx : (x o' + w o' == inject_Z (col * TILE) - 0.01)%Q).
  { rewrite Hfirst. cbn [x w set_x set_vx]. ring. }
  assert (Hy : y o' = y o /\ h o' = h o).
  { rewrite Hfirst. split; reflexivity. }
  destruct Hy as [Hy Hh].
  assert (Hlead : leadColumn o' dx' = tileOf (x o' + dx' + w o')).
  { unfold leadColumn. rewrite (proj2 (Qlt_bool_iff _ _) Hdx'). reflexivity. }
  assert (Hcols : col - 1 <= leadColumn o' dx' <= col).
  { assert (Hprev : tileOf (x o' + w o') = col - 1).
    { apply tileOf_unique; rewrite Hx; unfold TILE, Z.sub;
        rewrite ?inject_Z_mult, ?inject_Z_plus, ?inject_Z_opp;
        change (inject_Z 32) with 32%Q; change (inject_Z 1) with 1%Q; lra. }
    rewrite Hlead, <- Hprev.
    assert (Hn : tileOf (x o' + w o') <= tileOf (x o' + dx' + w o')
                 <= tileOf (x o' + w o') + 1)
      by (apply tileOf_next; unfold TILE; change (inject_Z 32) with 32%Q;
          lra).
    lia. }
  assert (Hstep : (inject_Z (leadColumn o' dx' * TILE)
                   <= inject_Z (col * TILE))%Q).
  { rewrite <- Zle_Qle. unfold TILE. lia. }
  destruct (scanRange (fun ty => isSolidTile (leadColumn o' dx') ty)
              (tileOf (y o')) (tileOf (y o' + h o' - 1))) eqn:Hscan.
  - rewrite (moveX_hit o' dx' E0' Hscan).
    rewrite (proj2 (Qlt_bool_iff _ _) Hdx'). cbn [x w set_x set_vx]. lra.
  - rewrite (moveX_clear o' dx' E0' Hscan). cbn [x w set_x].
    assert (Hcol : leadColumn o' dx' = col - 1).
    { destruct (Z.eq_dec (leadColumn o' dx') col) as [E|E]; [|lia].
      exfalso.
      assert (Htrue : scanRange (fun ty => isSolidTile (leadColumn o' dx') ty)
                        (tileOf (y o')) (tileOf (y o' + h o' - 1)) = true)
        by (apply scanRange_true_iff; rewrite E, Hy, Hh; exact Hsolid).
      congruence. }
    destruct (tileOf_spec (x o' + dx' + w o')) as [_ Hhi].
    rewrite <- Hlead, Hcol in Hhi.
    replace (col - 1 + 1) with col in Hhi by lia. lra.
Qed.

Lemma wall_holds_witness :
  let o := mkBody 293 515 26 30 180 0 false 1 false in
  (x (rectVsTilesMove (rectVsTilesMove o 3 0) 3 0) + 26 < 320)%Q.
Proof.
  intros o.
  assert (Hsolid : exists ty,
             tileOf (y o) <= ty <= tileOf (y o + h o - 1)%Q
             /\ isSolidTile (leadColumn o 3) ty = true).
  { exists 17. vm_compute. repeat split; discriminate. }
  exact (wall_holds o 3 3 eq_refl Hsolid eq_refl eq_refl).
Defined.
